(** * Crypto-API: the message facade, the command router and the user store

    A shallow embedding of [callback.py] ([Session], [Callback]) and
    [database.py] ([Database], [BaseUser]) and the properties of the
    specification proved, or refuted, on it.

    Conventions.
    - A Python [str] is a [string]; each character is read as the code point
      of the same number (0..255).  Error messages are opaque literals.
    - A Python [dict] with string keys is a [gmap string _].
    - Asynchronous code is a tree of events ([prog]): calls of a bound user
      function and requests to the transport client are the events, the
      values they give back feed the continuation. *)

From Stdlib Require Import ZArith Ascii String List Lia.
From stdpp Require Import base option list strings gmap.
Import ListNotations.
Local Open Scope string_scope.
Local Open Scope list_scope.
Local Open Scope Z_scope.

(** ** Python strings *)

Module PyStr.

(** [str.isspace] on one character: TAB LF VT FF CR, FS GS RS US, SPACE,
    NEL and NBSP are the white-space code points below 256. *)
Definition isspace (c : ascii) : bool :=
  let n := nat_of_ascii c in
  ((9 <=? n) && (n <=? 13))%nat || ((28 <=? n) && (n <=? 32))%nat
  || (n =? 133)%nat || (n =? 160)%nat.

(** [s.lstrip()] *)
Fixpoint lstrip (s : string) : string :=
  match s with
  | EmptyString => EmptyString
  | String c s' => if isspace c then lstrip s' else s
  end.

(** [s.rstrip()]: a character stays when it is no white space or when
    something stays after it. *)
Fixpoint rstrip (s : string) : string :=
  match s with
  | EmptyString => EmptyString
  | String c s' =>
      match rstrip s' with
      | EmptyString => if isspace c then EmptyString else String c EmptyString
      | r => String c r
      end
  end.

(** [s.strip()] *)
Definition strip (s : string) : string := rstrip (lstrip s).

(** [s.startswith(p)] *)
Fixpoint startswith (s p : string) : bool :=
  match p, s with
  | EmptyString, _ => true
  | String _ _, EmptyString => false
  | String a p', String b s' => if Ascii.eqb a b then startswith s' p' else false
  end.

(** [s[n:]] *)
Fixpoint slice_from (n : nat) (s : string) : string :=
  match n, s with
  | O, _ => s
  | S _, EmptyString => EmptyString
  | S n', String _ s' => slice_from n' s'
  end.

(** [s.split()]: the maximal runs of characters that are no white space.
    [cur] is the run being read, in reverse. *)
Fixpoint split_aux (s : string) (cur : list ascii) : list string :=
  match s with
  | EmptyString =>
      match cur with
      | [] => []
      | _ => [string_of_list_ascii (rev cur)]
      end
  | String c s' =>
      if isspace c then
        match cur with
        | [] => split_aux s' []
        | _ => string_of_list_ascii (rev cur) :: split_aux s' []
        end
      else split_aux s' (c :: cur)
  end.

Definition split (s : string) : list string := split_aux s [].

(** [len(s)] *)
Definition len (s : string) : nat := String.length s.

End PyStr.

(** ** Exceptions ([error.py] and the built-in ones that occur) *)

Inductive exn : Type :=
| EmptyContentError (msg : string) (code : Z)
| ContentTypeError (msg : string) (code : Z)
| UrlError (msg : string) (code : Z)
| IncompatibilityError (msg : string) (code : Z)
| BindCommandError (msg : string) (code : Z)
| RuntimeError (cause : exn)          (* [RuntimeError(e)] *)
| NameError (name : string)
| TypeError (msg : string)
| IntegrityError (msg : string)       (* the driver's, on a duplicate key *)
| ProgrammingError (msg : string)     (* the driver's, on an unknown table *)
| OtherException (repr : string)      (* any other subclass of [Exception] *)
| BaseExceptionOnly (repr : string).  (* not an [Exception]: cancellation, interrupt *)

(** [isinstance(e, Exception)], what [except Exception] catches. *)
Definition is_Exception (e : exn) : bool :=
  match e with BaseExceptionOnly _ => false | _ => true end.

Inductive outcome (A : Type) : Type :=
| Returned (a : A)
| Raised (e : exn).
Arguments Returned {A} a.
Arguments Raised {A} e.

(** ** The message variants of the transport SDK *)

(** The fields of [botpy.message.Message], [GroupMessage] and [C2CMessage]
    that the library reads.  The author's record is flattened. *)
Record ChannelData := {
  ch_id : string; ch_channel_id : string; ch_content : string;
  ch_author_id : string; ch_author_avatar : string; ch_timestamp : string }.

Record GroupData := {
  gr_id : string; gr_group_openid : string; gr_content : string;
  gr_author_member_openid : string; gr_timestamp : string }.

Record C2CData := {
  c2_id : string; c2_content : string;
  c2_author_user_openid : string; c2_timestamp : string }.

Inductive message : Type :=
| Message (m : ChannelData)
| GroupMessage (g : GroupData)
| C2CMessage (c : C2CData).

(** What a caller may hand to [Callback(...)]: a message, or an object of
    another class, of which only the class name matters. *)
Inductive pyobj : Type :=
| OMessage (m : message)
| OOther (class_name : string).

(** [isinstance(o, (GroupMessage, Message, C2CMessage))] *)
Definition isinstance_message (o : pyobj) : bool :=
  match o with OMessage _ => true | OOther _ => false end.

(** [type(o).__name__] *)
Definition type_name (o : pyobj) : string :=
  match o with
  | OMessage (Message _) => "Message"
  | OMessage (GroupMessage _) => "GroupMessage"
  | OMessage (C2CMessage _) => "C2CMessage"
  | OOther n => n
  end.

Definition message_content (m : message) : string :=
  match m with
  | Message d => ch_content d
  | GroupMessage d => gr_content d
  | C2CMessage d => c2_content d
  end.

Definition message_id (m : message) : string :=
  match m with
  | Message d => ch_id d
  | GroupMessage d => gr_id d
  | C2CMessage d => c2_id d
  end.

(** ** Callback: construction and accessors *)

Record Callback := {
  msg_type : string;
  msg_obj : message;
  bot_appid : option string }.

(** ** Python values *)

(** The values that cross the interfaces modelled here. [VObj] is any other
    object (no [__bool__], no [__len__]: it is truthy), and so is a
    [Callback]. *)
#[warnings="-register-all"]
Inductive pyval : Type :=
| VNone
| VBool (b : bool)
| VInt (z : Z)
| VStr (s : string)
| VList (l : list pyval)
| VTuple (l : list pyval)
| VCallback (cb : Callback)
| VObj (repr : string).

(** The truth value of [v] in [if v], [v or w], [not v]. *)
Definition truthy (v : pyval) : bool :=
  match v with
  | VNone => false
  | VBool b => b
  | VInt z => negb (z =? 0)
  | VStr s => negb (String.eqb s "")
  | VList l | VTuple l => match l with [] => false | _ => true end
  | VCallback _ | VObj _ => true
  end.

(** [v or w] *)
Definition py_or (v w : pyval) : pyval := if truthy v then v else w.

(** [isinstance(v, list)] *)
Definition isinstance_list (v : pyval) : bool :=
  match v with VList _ => true | _ => false end.

(** The table [TYPE] of [Callback.__init__]. *)
Definition TYPE : gmap string string :=
  <["C2CMessage" := "c2c"]> (<["GroupMessage" := "group"]> (<["Message" := "channel"]> ∅)).

(** [Callback.__init__(msg_obj, bot_appid=...)].  The lookup in [TYPE]
    raises [KeyError] on a missing key, written [OtherException] here. *)
Definition Callback_init (o : pyobj) (appid : option string) : outcome Callback :=
  if negb (isinstance_message o) then
    Raised (ContentTypeError "错误的消息类型" 400)
  else
    match TYPE !! type_name o, o with
    | Some t, OMessage m => Returned {| msg_type := t; msg_obj := m; bot_appid := appid |}
    | _, _ => Raised (OtherException "KeyError")
    end.

(** [Callback.user_openid] *)
Definition user_openid (self : Callback) : string :=
  match msg_obj self with
  | Message d => ch_author_id d
  | GroupMessage d => gr_author_member_openid d
  | C2CMessage d => c2_author_user_openid d
  end.

(** [Callback.content] *)
Definition content (self : Callback) : string :=
  PyStr.strip (message_content (msg_obj self)).

(** [Callback.command(prefix, sep_params)].  Every operation of the [try]
    block is total on strings, so the [except] clause is never entered. *)
Definition command (self : Callback) (prefix : string) (sep_params : bool) : pyval :=
  let message := PyStr.strip (message_content (msg_obj self)) in
  if PyStr.startswith message prefix && sep_params then
    let handle_message := PyStr.strip (PyStr.slice_from (PyStr.len prefix) message) in
    VList (map VStr (PyStr.split handle_message))
  else VStr message.

(** ** Programs: the events of asynchronous code *)

(** The requests of the transport client ([self.api]).  An optional
    argument that the caller leaves out is [None]. *)
Inductive api_call : Type :=
| post_message (channel_id content : string) (image : option pyval) (msg_id : string)
| post_group_message (group_openid : string) (msg_type : Z) (content msg_id : string)
    (msg_seq : Z) (media : option pyval)
| post_c2c_message (openid : string) (msg_type : Z) (content msg_id : string)
    (msg_seq : Z) (media : option pyval)
| post_group_file (group_openid : string) (file_type : Z) (url : string)
| post_c2c_file (openid : string) (file_type : Z) (url : string).

(** A coroutine of the library.  [Call f args kwargs k] awaits the user
    function named [f] on the positional arguments [args] and the keyword
    arguments [kwargs]; [Api c k] awaits the transport
    request [c].  In both, [k] receives what the awaited call returned or
    raised. *)
Inductive prog (R : Type) : Type :=
| Ret (r : R)
| Raise (e : exn)
| Call (f : string) (args : list pyval) (kwargs : gmap string pyval)
    (k : outcome pyval -> prog R)
| Api (c : api_call) (k : outcome pyval -> prog R).
Arguments Ret {R} r.
Arguments Raise {R} e.
Arguments Call {R} f args kwargs k.
Arguments Api {R} c k.

(** [return await ...] with no handler around: the value is returned, the
    exception goes on. *)
Definition propagate {R} (o : outcome R) : prog R :=
  match o with
  | Returned v => Ret v
  | Raised e => Raise e
  end.

Fixpoint prog_bind {A B} (f : A -> prog B) (p : prog A) : prog B :=
  match p with
  | Ret a => f a
  | Raise e => Raise e
  | Call fn args kwargs k => Call fn args kwargs (fun o => prog_bind f (k o))
  | Api c k => Api c (fun o => prog_bind f (k o))
  end.

#[export] Instance prog_mret : MRet prog := @Ret.
#[export] Instance prog_mbind : MBind prog := @prog_bind.

(** What a run of a program did, in order. *)
Inductive event : Type :=
| EvCall (f : string) (args : list pyval) (kwargs : gmap string pyval)
| EvApi (c : api_call).

Section Run.

(** [W] is the state of everything outside the library: the user
    functions' own state and the transport (or its mock). *)
Context {W : Type}.
Variable user : string -> list pyval -> gmap string pyval -> W -> outcome pyval * W.
Variable transport : api_call -> W -> outcome pyval * W.

(** Runs [p] from [w]: the outcome, the final state and the events. *)
Fixpoint run {R} (p : prog R) (w : W) : outcome R * W * list event :=
  match p with
  | Ret r => (Returned r, w, [])
  | Raise e => (Raised e, w, [])
  | Call f args kwargs k =>
      let '(o, w1) := user f args kwargs w in
      let '(r, w2, t) := run (k o) w1 in
      (r, w2, EvCall f args kwargs :: t)
  | Api c k =>
      let '(o, w1) := transport c w in
      let '(r, w2, t) := run (k o) w1 in
      (r, w2, EvApi c :: t)
  end.

End Run.

(** ** Session *)

(** An element of a list of handlers: something callable (it is called as
    [func(msg_obj=callback)], so it takes positional and keyword arguments)
    or any other object. *)
Inductive pyfunc : Type :=
| Callable (h : list pyval -> gmap string pyval -> prog pyval)
| NotCallable (v : pyval).

Record Session := { _bind_function : list pyfunc }.

(** [Session.__init__] *)
Definition Session_init : Session := {| _bind_function := [] |}.

(** [Session.get_bind] *)
Definition get_bind (self : Session) : list pyfunc := _bind_function self.

(** [kwargs.get(key)] *)
Definition kwargs_get (kwargs : gmap string pyval) (key : string) : pyval :=
  default VNone (kwargs !! key).

Section Wrapper.

(** The variables the closure [wrapper] captures. *)
Variables (commands prefixes limitation : list string) (func : string).

(** [for limit in limitation: if limit == callback.msg_type: return False],
    then [rest]. *)
Fixpoint for_limit (limits : list string) (callback : Callback)
    (rest : prog pyval) : prog pyval :=
  match limits with
  | [] => rest
  | limit :: limits' =>
      if String.eqb limit (msg_type callback) then Ret (VBool false)
      else for_limit limits' callback rest
  end.

(** The inner loop [for command in commands: ...], then [rest]. *)
Fixpoint for_command (cmds : list string) (prefix : string) (callback : Callback)
    (args : list pyval) (kwargs : gmap string pyval) (rest : prog pyval) : prog pyval :=
  match cmds with
  | [] => rest
  | command_ :: cmds' =>
      let cmd := command callback (prefix +:+ command_) true in
      if isinstance_list cmd then
        let kwargs := <["params" := py_or cmd (VStr "")]> kwargs in
        Call func args kwargs propagate
      else for_command cmds' prefix callback args kwargs rest
  end.

(** The outer loop [for prefix in prefixes: ...], then [return False]. *)
Fixpoint for_prefix (pres : list string) (callback : Callback)
    (args : list pyval) (kwargs : gmap string pyval) : prog pyval :=
  match pres with
  | [] => Ret (VBool false)
  | prefix :: pres' =>
      for_command commands prefix callback args kwargs
        (for_prefix pres' callback args kwargs)
  end.

(** The coroutine [wrapper] of [Session.bind], called on the positional
    arguments [args] and the keyword arguments [kwargs]. *)
Definition wrapper (args : list pyval) (kwargs : gmap string pyval) : prog pyval :=
  let callback := py_or (kwargs_get kwargs "msg_obj") (kwargs_get kwargs "callback") in
  match callback with
  | VNone => Raise (BindCommandError "未找到msg_obj参数" 100)
  | VCallback callback =>
      for_limit limitation callback (for_prefix prefixes callback args kwargs)
  | _ => Raise (BindCommandError "msg_obj参数类型错误" 100)
  end.

End Wrapper.

(** The defaults of [bind]: [prefixes=['/', '']] and [limitation=[]]. *)
Definition default_prefixes : list string := ["/"; ""].
Definition default_limitation : list string := [].

(** [self.bind(commands..., prefixes=..., limitation=...)(func)]: the wrapper
    is appended to the session's list and returned. *)
Definition bind (self : Session) (commands prefixes limitation : list string)
    (func : string) : Session * pyfunc :=
  let w := Callable (wrapper commands prefixes limitation func) in
  ({| _bind_function := _bind_function self ++ [w] |}, w).

(** ** Callback.reduce *)

(** What [reduce] may receive as [session]. *)
Inductive session_arg : Type :=
| ASession (s : Session)
| AList (l : list pyfunc)
| AOther (v : pyval).

(** The keyword arguments of the call [func(msg_obj=callback)]. *)
Definition msg_obj_only (callback : Callback) : gmap string pyval :=
  <["msg_obj" := VCallback callback]> ∅.

(** [for func in func_list: if isinstance(func, Callable) and
    await func(msg_obj=callback): return True], then [return False]. *)
Fixpoint for_func (func_list : list pyfunc) (callback : Callback) : prog pyval :=
  match func_list with
  | [] => Ret (VBool false)
  | NotCallable _ :: rest => for_func rest callback
  | Callable func :: rest =>
      r ← func [] (msg_obj_only callback);
      if truthy r then Ret (VBool true) else for_func rest callback
  end.

(** [Callback.reduce(session, callback=None)] *)
Definition reduce (self : Callback) (session : session_arg)
    (callback : option Callback) : prog pyval :=
  let callback := default self callback in
  match session with
  | ASession s => for_func (get_bind s) callback
  | AList l => for_func l callback
  | AOther _ => Raise (TypeError "错误的 session 类型")
  end.

(** ** The default sequence numbers *)

(** The random source of the process: the numbers it will give, and how
    many were taken. *)
Record RandomState := { draws : nat -> Z; taken : nat }.

(** [randint(a, b)]: the next number of the source, brought into [a..b]. *)
Definition randint (a b : Z) (g : RandomState) : Z * RandomState :=
  (a + draws g (taken g) mod (b - a + 1),
   {| draws := draws g; taken := S (taken g) |}).

(** The values of the default arguments [seq = randint(...)], one per
    [def]. *)
Record Defaults := {
  send_seq : Z;
  _send_media_seq : Z;
  send_image_seq : Z;
  send_silk_seq : Z;
  send_video_seq : Z }.

(** The execution of the body of [class Callback]: each [def] evaluates its
    default arguments, in the order of the source. *)
Definition class_Callback (g : RandomState) : Defaults * RandomState :=
  let '(s1, g) := randint 0 1000000 g in
  let '(s2, g) := randint 1 1000000 g in
  let '(s3, g) := randint 1 1000000 g in
  let '(s4, g) := randint 1 1000000 g in
  let '(s5, g) := randint 1 1000000 g in
  ({| send_seq := s1; _send_media_seq := s2; send_image_seq := s3;
      send_silk_seq := s4; send_video_seq := s5 |}, g).

(** ** The send operations *)

(** The names bound at the top level of [callback.py] once it is loaded:
    its imports (those of [from .error import *] included) and its two
    classes.  No built-in is called [url]. *)
Definition module_globals : list string :=
  ["annotations"; "re"; "asyncio"; "randint"; "Union"; "List"; "Optional";
   "Tuple"; "Dict"; "TypedDict"; "Any"; "Callable"; "wraps"; "BotAPI";
   "C2CMessage"; "Message"; "GroupMessage"; "BaseError"; "EmptyContentError";
   "ContentTypeError"; "UrlError"; "IncompatibilityError"; "BindCommandError";
   "Session"; "Callback"].

(** The value of a name that no assignment of the function binds. *)
Definition load_global (name : string) : outcome pyval :=
  if existsb (String.eqb name) module_globals then Returned (VObj name)
  else Raised (NameError name).

(** The handlers of [send]: [except ContentTypeError: raise] and
    [except Exception as e: raise RuntimeError(e) from None]. *)
Definition send_except (e : exn) : exn :=
  match e with
  | ContentTypeError _ _ => e
  | _ => if is_Exception e then RuntimeError e else e
  end.

(** The handlers of [_send_media]:
    [except (ContentTypeError, IncompatibilityError): raise] and
    [except Exception as e: raise RuntimeError(e) from None]. *)
Definition media_except (e : exn) : exn :=
  match e with
  | ContentTypeError _ _ | IncompatibilityError _ _ => e
  | _ => if is_Exception e then RuntimeError e else e
  end.

Section Sends.

Variable D : Defaults.

(** [Callback.send(content, seq=...)]; [seq] is [None] when the caller
    leaves it out, and [str(content)] is [content], a [str].  The last
    [else] of the source has no case here: a [message] is one of the three
    variants. *)
Definition send (self : Callback) (content : string) (seq : option Z) : prog pyval :=
  let seq := default (send_seq D) seq in
  if (PyStr.len content =? 0)%nat then
    Raise (EmptyContentError "消息不能为空" 200)
  else
    let finish (o : outcome pyval) : prog pyval :=
      match o with
      | Returned _ => Ret (VTuple [VInt 200; VStr "发送成功"])
      | Raised e => Raise (send_except e)
      end in
    match msg_obj self with
    | Message d =>
        Api (post_message (ch_channel_id d) content None (ch_id d)) finish
    | GroupMessage d =>
        Api (post_group_message (gr_group_openid d) 0 content (gr_id d) seq None) finish
    | C2CMessage d =>
        Api (post_c2c_message (c2_author_user_openid d) 0 content (c2_id d) seq None) finish
    end.

(** [Callback._send_media(media_url, media_type, content, seq=...)] *)
Definition _send_media (self : Callback) (media_url : string) (media_type : Z)
    (content : string) (seq : option Z) : prog pyval :=
  let seq := default (_send_media_seq D) seq in
  let finish (o : outcome pyval) : prog pyval :=
    match o with
    | Returned _ => Ret VNone
    | Raised e => Raise (media_except e)
    end in
  match msg_obj self with
  | Message d =>
      if existsb (Z.eqb media_type) [2; 3] then
        Raise (media_except
                 (IncompatibilityError "发送失败，该对象不可发送此类文件" 500))
      else
        (* the arguments of the call are evaluated first: [image=url] *)
        match load_global "url" with
        | Raised e => Raise (media_except e)
        | Returned url =>
            Api (post_message (ch_channel_id d) content (Some url) (ch_id d)) finish
        end
  | GroupMessage d =>
      Api (post_group_file (gr_group_openid d) media_type media_url)
        (fun o =>
           match o with
           | Raised e => Raise (media_except e)
           | Returned media =>
               Api (post_group_message (gr_group_openid d) 7 content (gr_id d)
                      seq (Some media)) finish
           end)
  | C2CMessage d =>
      Api (post_c2c_file (c2_author_user_openid d) media_type media_url)
        (fun o =>
           match o with
           | Raised e => Raise (media_except e)
           | Returned media =>
               Api (post_c2c_message (c2_author_user_openid d) 7 content (c2_id d)
                      seq (Some media)) finish
           end)
  end.

(** [Callback.send_image(image_url, content='', seq=...)]; [content] and
    [seq] are [None] when the caller leaves them out. *)
Definition send_image (self : Callback) (image_url : string)
    (content : option string) (seq : option Z) : prog pyval :=
  let content := default "" content in
  let seq := default (send_image_seq D) seq in
  if (PyStr.len content =? 0)%nat then
    Raise (EmptyContentError "消息不能为空" 500)
  else
    _ ← _send_media self image_url 1 content (Some seq);
    Ret VNone.

(** [Callback.send_silk(silk_url, seq=...)] *)
Definition send_silk (self : Callback) (silk_url : string) (seq : option Z) : prog pyval :=
  let seq := default (send_silk_seq D) seq in
  _ ← _send_media self silk_url 3 "" (Some seq);
  Ret VNone.

(** [Callback.send_video(video_url, seq=...)] *)
Definition send_video (self : Callback) (video_url : string) (seq : option Z) : prog pyval :=
  let seq := default (send_video_seq D) seq in
  _ ← _send_media self video_url 2 "" (Some seq);
  Ret VNone.

End Sends.

(** ** The user store ([database.py]) *)

(** [BaseUser]: the snapshot of a row. *)
Record BaseUser := {
  userid : Z;
  openid : string;
  message_number : Z;
  channel_id : option string;
  group_id : option string }.

(** A row of one of the tables [channel_table], [group_table] and
    [c2c_table]: [context] is the column [channel_id] or [group_id]
    ([NULL] is [None]); [c2c_table] has no such column. *)
Record row := {
  row_userid : Z;
  row_openid : string;
  row_message_number : Z;
  row_context : option string }.

(** A table: its rows by [openid], which is [UNIQUE], and the next value
    of the [AUTO_INCREMENT] column [userid]. *)
Record table := {
  rows : gmap string row;
  auto_increment : Z }.

(** What the cursor is asked to execute, and the commit. *)
Inductive statement : Type :=
| SELECT (table_name : string) (where_openid : string)
| INSERT (table_name : string) (columns values : list string)
| COMMIT.

Definition is_insert (s : statement) : bool :=
  match s with INSERT _ _ _ => true | _ => false end.

(** The database [qq_bot_database] once its three tables are created, and
    the statements it received.  The driver is taken to fail only where
    SQL says so: an unknown table or column, a duplicate [openid]. *)
Record Database := {
  channel_table : table;
  group_table : table;
  c2c_table : table;
  executed : list statement }.

Definition count_inserts (db : Database) : nat :=
  length (filter (fun s => is_insert s = true) (executed db)).

(** The audience kind of a table name, if it names one of the tables. *)
Definition kind_of_table (table_name : string) : option string :=
  if String.eqb table_name "channel_table" then Some "channel"
  else if String.eqb table_name "group_table" then Some "group"
  else if String.eqb table_name "c2c_table" then Some "c2c"
  else None.

Definition get_table (kind : string) (db : Database) : table :=
  if String.eqb kind "channel" then channel_table db
  else if String.eqb kind "group" then group_table db
  else c2c_table db.

Definition set_table (kind : string) (t : table) (db : Database) : Database :=
  if String.eqb kind "channel" then
    {| channel_table := t; group_table := group_table db;
       c2c_table := c2c_table db; executed := executed db |}
  else if String.eqb kind "group" then
    {| channel_table := channel_table db; group_table := t;
       c2c_table := c2c_table db; executed := executed db |}
  else
    {| channel_table := channel_table db; group_table := group_table db;
       c2c_table := t; executed := executed db |}.

Definition log (s : statement) (db : Database) : Database :=
  {| channel_table := channel_table db; group_table := group_table db;
     c2c_table := c2c_table db; executed := executed db ++ [s] |}.

(** The extra column of a kind's table (the table [INTERFACE]). *)
Definition INTERFACE : gmap string (option string) :=
  <["c2c" := None]> (<["group" := Some "group_id"]> (<["channel" := Some "channel_id"]> ∅)).

(** The value of an [INT] column given as a decimal string. *)
Fixpoint digits_value (s : string) (acc : Z) : option Z :=
  match s with
  | EmptyString => Some acc
  | String c s' =>
      let n := nat_of_ascii c in
      if ((48 <=? n) && (n <=? 57))%nat
      then digits_value s' (10 * acc + Z.of_nat (n - 48))
      else None
  end.

Definition int_of_string (s : string) : option Z :=
  match s with
  | EmptyString => None
  | _ => digits_value s 0
  end.

(** Operations on the store: state passing, with exceptions. *)
Definition db_op (A : Type) : Type := Database -> outcome A * Database.

#[export] Instance db_mret : MRet db_op := fun A a db => (Returned a, db).
#[export] Instance db_mbind : MBind db_op := fun A B f m db =>
  match m db with
  | (Returned a, db1) => f a db1
  | (Raised e, db1) => (Raised e, db1)
  end.

Definition db_raise {A} (e : exn) : db_op A := fun db => (Raised e, db).

(** [try: m  except Exception as e: raise RuntimeError(e) from None] *)
Definition try_RuntimeError {A} (m : db_op A) : db_op A := fun db =>
  match m db with
  | (Raised e, db1) => (Raised (if is_Exception e then RuntimeError e else e), db1)
  | r => r
  end.

(** [cursor.execute('SELECT * from T WHERE openid = %s', (id,))] followed
    by [cursor.fetchone()]: the row and the kind of its table. *)
Definition execute_select (table_name id : string) : db_op (option (string * row)) :=
  fun db =>
    let db := log (SELECT table_name id) db in
    match kind_of_table table_name with
    | None => (Raised (ProgrammingError table_name), db)
    | Some kind =>
        (Returned (pair kind <$> rows (get_table kind db) !! id), db)
    end.

(** [cursor.execute('INSERT INTO T (columns) VALUES (%s, ...)', values)] *)
Definition execute_insert (table_name : string) (columns values : list string) : db_op unit :=
  fun db =>
    let db := log (INSERT table_name columns values) db in
    match kind_of_table table_name with
    | None => (Raised (ProgrammingError table_name), db)
    | Some kind =>
        let given : gmap string string := list_to_map (zip columns values) in
        let context := default None (INTERFACE !! kind) in
        let known c := String.eqb c "openid" || String.eqb c "message_number"
                       || bool_decide (context = Some c) in
        let t := get_table kind db in
        match given !! "openid", int_of_string <$> given !! "message_number" with
        | Some id, Some (Some n) =>
            if negb (forallb known columns) then (Raised (ProgrammingError "column"), db)
            else if bool_decide (is_Some (rows t !! id)) then (Raised (IntegrityError id), db)
            else
              let r := {| row_userid := auto_increment t; row_openid := id;
                          row_message_number := n;
                          row_context := context ≫= (fun c => given !! c) |} in
              (Returned tt,
               set_table kind {| rows := <[id := r]> (rows t);
                                 auto_increment := auto_increment t + 1 |} db)
        | _, _ => (Raised (OtherException "DataError"), db)
        end
    end.

(** [connection.commit()] *)
Definition commit : db_op unit := fun db => (Returned tt, log COMMIT db).

(** [BaseUser] built from the dictionary [query] of a fetched row, its
    keys given as keyword arguments. *)
Definition BaseUser_of_row (kind : string) (r : row) : BaseUser :=
  {| userid := row_userid r;
     openid := row_openid r;
     message_number := row_message_number r;
     channel_id := if String.eqb kind "channel" then row_context r else None;
     group_id := if String.eqb kind "group" then row_context r else None |}.

(** [Database.get_userinfo(callback)] *)
Definition get_userinfo (callback : Callback) : db_op (option BaseUser) :=
  try_RuntimeError (
    query ← execute_select (msg_type callback +:+ "_table") (user_openid callback);
    match query with
    | Some (kind, r) => mret (Some (BaseUser_of_row kind r))
    | None => mret None
    end).

(** The second component of an entry of [DB_TYPE]: a function of the
    message, or an object that is not one. *)
Inductive coc_entry : Type :=
| Lambda (f : message -> outcome string)
| NotAFunction (v : pyval).

(** [coc_func(callback.msg_obj)] *)
Definition call_coc (c : coc_entry) (m : message) : outcome string :=
  match c with
  | Lambda f => f m
  | NotAFunction _ => Raised (TypeError "'str' object is not callable")
  end.

(** The table [DB_TYPE] of [insert_userinfo]. *)
Definition DB_TYPE : gmap string (string * coc_entry) :=
  <["C2CMessage" := ("c2c", NotAFunction (VStr "None"))]> (
  <["GroupMessage" :=
      ("group",
       Lambda (fun obj => match obj with
                          | GroupMessage d => Returned (gr_group_openid d)
                          | _ => Raised (OtherException "AttributeError")
                          end))]> (
  <["Message" :=
      ("channel",
       Lambda (fun obj => match obj with
                          | Message d => Returned (ch_channel_id d)
                          | _ => Raised (OtherException "AttributeError")
                          end))]> ∅)).

(** [Database.insert_userinfo(callback)] *)
Definition insert_userinfo (callback : Callback) : db_op BaseUser :=
  query_user ← get_userinfo callback;
  match query_user with
  | Some query_user => mret query_user
  | None =>
      try_RuntimeError (
        let msg_type := type_name (OMessage (msg_obj callback)) in
        match DB_TYPE !! msg_type with
        | None => db_raise (OtherException "KeyError")
        | Some (coc_type, coc_func) =>
            match call_coc coc_func (msg_obj callback) with
            | Raised e => db_raise e
            | Returned coc_value =>
                let base_column := ["openid"; "message_number"] in
                let base_values := [user_openid callback; "1"] in
                let '(base_column, base_values) :=
                  if truthy (VStr coc_value)
                  then ((base_column ++ [coc_type +:+ "_id"])%list,
                        (base_values ++ [coc_value])%list)
                  else (base_column, base_values) in
                _ ← execute_insert (coc_type +:+ "_table") base_column base_values;
                _ ← commit;
                mret {| userid := 0;
                        openid := user_openid callback;
                        message_number := 1;
                        channel_id := if String.eqb coc_type "channel"
                                      then Some coc_value else None;
                        group_id := if String.eqb coc_type "group"
                                    then Some coc_value else None |}
            end
        end)
  end.

(** * Vocabulary of the properties *)

(** The audience tag that belongs to a message variant. *)
Definition audience_of (m : message) : string :=
  match m with
  | Message _ => "channel"
  | GroupMessage _ => "group"
  | C2CMessage _ => "c2c"
  end.

(** The [Callback] that [Callback_init] builds from a message. *)
Definition built (m : message) (appid : option string) : Callback :=
  {| msg_type := audience_of m; msg_obj := m; bot_appid := appid |}.

(** The strings the wrapper tries, in its order: the prefixes in the outer
    loop, the commands in the inner one. *)
Definition attempts (prefixes commands : list string) : list string :=
  flat_map (fun prefix => map (fun command_ => prefix +:+ command_) commands) prefixes.

(** The content of [cb] parses against [pc]: it starts with it. *)
Definition parses (cb : Callback) (pc : string) : bool :=
  PyStr.startswith (content cb) pc.

(** What is left of the content after [pc], split at white space. *)
Definition arguments (cb : Callback) (pc : string) : list string :=
  PyStr.split (PyStr.strip (PyStr.slice_from (PyStr.len pc) (content cb))).

(** The value of [cmd or ''] for the list [l]. *)
Definition params_value (l : list string) : pyval :=
  match l with
  | [] => VStr ""
  | _ => VList (map VStr l)
  end.

(** The call of the user function [func] on the first parse [pc]. *)
Definition invoke (func : string) (cb : Callback) (args : list pyval)
    (kwargs : gmap string pyval) (pc : string) : prog pyval :=
  Call func args (<["params" := params_value (arguments cb pc)]> kwargs) propagate.

(** The list of handlers that [reduce] scans for a session argument. *)
Definition session_handlers (session : session_arg) : option (list pyfunc) :=
  match session with
  | ASession s => Some (get_bind s)
  | AList l => Some l
  | AOther _ => None
  end.

(** The session of the example: a handler bound to "ping", then one bound
    to "pong", both with the default prefixes and no limitation. *)
Definition ping_pong_session (on_ping on_pong : string) : Session :=
  let s0 := Session_init in
  let s1 := fst (bind s0 ["ping"] default_prefixes default_limitation on_ping) in
  let s2 := fst (bind s1 ["pong"] default_prefixes default_limitation on_pong) in
  s2.

Section Scan.

Context {W : Type}.
Variable user : string -> list pyval -> gmap string pyval -> W -> outcome pyval * W.
Variable transport : api_call -> W -> outcome pyval * W.

(** The handlers of [fs], called in order on [cb] from [w], all returned a
    falsy value; [w'] is the state after the last, and [t] what they did. *)
Inductive all_falsy (cb : Callback) : list pyfunc -> W -> W -> list event -> Prop :=
| all_falsy_nil w : all_falsy cb [] w w []
| all_falsy_skip v fs w w' t :
    all_falsy cb fs w w' t -> all_falsy cb (NotCallable v :: fs) w w' t
| all_falsy_call h fs w v w1 t1 w2 t2 :
    run user transport (h [] (msg_obj_only cb)) w = (Returned v, w1, t1) ->
    truthy v = false ->
    all_falsy cb fs w1 w2 t2 ->
    all_falsy cb (Callable h :: fs) w w2 (t1 ++ t2).

End Scan.

(** The sequence number a transport request carries, if it has one. *)
Definition msg_seq_of (c : api_call) : option Z :=
  match c with
  | post_group_message _ _ _ _ seq _ | post_c2c_message _ _ _ _ seq _ => Some seq
  | _ => None
  end.

(** The sequence numbers of the requests among the events of a run. *)
Definition seqs (t : list event) : list (option Z) :=
  flat_map (fun ev => match ev with EvApi c => [msg_seq_of c] | _ => [] end) t.

(** The row that the store holds for the sender of [cb], in the table of
    the audience of [cb]. *)
Definition stored (cb : Callback) (db : Database) : option row :=
  rows (get_table (msg_type cb) db) !! user_openid cb.

(** The channel id or the group id of a message; a direct message has
    none. *)
Definition context_of (m : message) : option string :=
  match m with
  | Message d => Some (ch_channel_id d)
  | GroupMessage d => Some (gr_group_openid d)
  | C2CMessage _ => None
  end.

(** The row that an insert for the sender of [cb] creates in [db]: an
    empty context id is not inserted and stays [NULL]. *)
Definition new_row (cb : Callback) (db : Database) : row :=
  {| row_userid := auto_increment (get_table (msg_type cb) db);
     row_openid := user_openid cb;
     row_message_number := 1;
     row_context := match context_of (msg_obj cb) with
                    | Some c => if String.eqb c "" then None else Some c
                    | None => None
                    end |}.

(** The snapshot that [insert_userinfo] returns after an insert. *)
Definition fresh_snapshot (cb : Callback) : BaseUser :=
  {| userid := 0;
     openid := user_openid cb;
     message_number := 1;
     channel_id := match msg_obj cb with
                   | Message d => Some (ch_channel_id d)
                   | _ => None
                   end;
     group_id := match msg_obj cb with
                 | GroupMessage d => Some (gr_group_openid d)
                 | _ => None
                 end |}.

(** The [INSERT] for the sender of [cb]. *)
Definition insert_statement (cb : Callback) : statement :=
  match context_of (msg_obj cb) with
  | Some c =>
      if String.eqb c "" then
        INSERT (msg_type cb +:+ "_table") ["openid"; "message_number"]
          [user_openid cb; "1"]
      else
        INSERT (msg_type cb +:+ "_table")
          ["openid"; "message_number"; msg_type cb +:+ "_id"]
          [user_openid cb; "1"; c]
  | None =>
      INSERT (msg_type cb +:+ "_table") ["openid"; "message_number"]
        [user_openid cb; "1"]
  end.

(** The database after the three statements of a first call. *)
Definition after_insert (cb : Callback) (db : Database) : Database :=
  let kind := msg_type cb in
  let t := get_table kind db in
  log COMMIT
    (set_table kind
       {| rows := <[user_openid cb := new_row cb db]> (rows t);
          auto_increment := auto_increment t + 1 |}
       (log (insert_statement cb)
          (log (SELECT (kind +:+ "_table") (user_openid cb)) db))).

(** ** Examples *)

Definition group_msg (text : string) : message :=
  GroupMessage {| gr_id := "m-1"; gr_group_openid := "group-1"; gr_content := text;
                  gr_author_member_openid := "member-1"; gr_timestamp := "" |}.

Definition channel_data (text : string) : ChannelData :=
  {| ch_id := "m-2"; ch_channel_id := "channel-1"; ch_content := text;
     ch_author_id := "author-1"; ch_author_avatar := ""; ch_timestamp := "" |}.

Definition channel_msg (text : string) : message := Message (channel_data text).

Definition c2c_msg (text : string) : message :=
  C2CMessage {| c2_id := "m-3"; c2_content := text;
                c2_author_user_openid := "user-1"; c2_timestamp := "" |}.

Definition callback_of (m : message) : Callback := built m None.

(** A world for examples: the number of calls made so far.  The user
    function "on_pong" answers [True], "quiet" answers [None], any other
    raises; the transport accepts every request. *)
Definition counting_user (f : string) (args : list pyval) (kwargs : gmap string pyval)
    (n : nat) : outcome pyval * nat :=
  if String.eqb f "on_pong" then (Returned (VBool true), S n)
  else if String.eqb f "quiet" then (Returned VNone, S n)
  else (Raised (OtherException f), S n).

Definition counting_transport (c : api_call) (n : nat) : outcome pyval * nat :=
  (Returned (VObj "response"), S n).

(** A handler that is no bound wrapper: it awaits the user function [f]. *)
Definition plain_handler (f : string) : pyfunc :=
  Callable (fun args kwargs => Call f args kwargs propagate).

Definition some_defaults : Defaults :=
  {| send_seq := 11; _send_media_seq := 12; send_image_seq := 13;
     send_silk_seq := 14; send_video_seq := 15 |}.

(** A database whose three tables are empty. *)
Definition empty_table : table := {| rows := ∅; auto_increment := 1 |}.

Definition empty_database : Database :=
  {| channel_table := empty_table; group_table := empty_table;
     c2c_table := empty_table; executed := [] |}.

(** * Further operations of the library *)

(** [Session.fusion(sessions...)]: the handlers of [self], then those of
    every argument that is a [Session], in the order of the arguments; an
    argument of another type gives none. *)
Definition fusion (self : Session) (sessions : list session_arg) : list pyfunc :=
  get_bind self
  ++ flat_map (fun s => match s with
                        | ASession s => get_bind s
                        | _ => []
                        end) sessions.

(** The rows that [SELECT * FROM group_table WHERE group_id = %s] gives:
    a [NULL] group id equals nothing.  The order is the one of the map. *)
Definition select_by_group (group_id : string) (t : table) : list row :=
  filter (fun r => row_context r = Some group_id) (snd <$> map_to_list (rows t)).

(** [Database.get_group_use_user(callback)].  No handler is around the
    query; its statement is not kept in [executed], which holds the
    statements on one open-id. *)
Definition get_group_use_user (callback : Callback) : db_op (list BaseUser) :=
  fun db =>
    match msg_obj callback with
    | GroupMessage d =>
        let group_id := gr_group_openid d in
        (Returned (BaseUser_of_row "group" <$> select_by_group group_id (group_table db)),
         db)
    | _ => (Returned [], db)
    end.

(** [TRUNCATE TABLE]: no row is left and [AUTO_INCREMENT] starts again. *)
Definition truncate (t : table) : table := {| rows := ∅; auto_increment := 1 |}.

(** [Database.clear_table()]: the three tables are truncated, then the
    commit.  Of its statements, [executed] keeps the commit. *)
Definition clear_table : db_op unit :=
  try_RuntimeError (fun db =>
    let db := foldl (fun db coc_type => set_table coc_type (truncate (get_table coc_type db)) db)
                db ["channel"; "group"; "c2c"] in
    commit db).

(** * Further vocabulary *)

(** No character of [w] is white space. *)
Definition no_space (w : string) : bool :=
  forallb (fun c => negb (PyStr.isspace c)) (list_ascii_of_string w).

(** The content and the id of the inbound message that a request to post a
    message carries, and the media of a rich-media message. *)
Definition request_content (c : api_call) : option string :=
  match c with
  | post_message _ content_ _ _ | post_group_message _ _ content_ _ _ _
  | post_c2c_message _ _ content_ _ _ _ => Some content_
  | _ => None
  end.

Definition request_msg_id (c : api_call) : option string :=
  match c with
  | post_message _ _ _ id | post_group_message _ _ _ id _ _
  | post_c2c_message _ _ _ id _ _ => Some id
  | _ => None
  end.

Definition request_media (c : api_call) : option pyval :=
  match c with
  | post_group_message _ _ _ _ _ media | post_c2c_message _ _ _ _ _ media => media
  | _ => None
  end.

(** The file type and the address of an upload request. *)
Definition request_upload (c : api_call) : option (Z * string) :=
  match c with
  | post_group_file _ file_type url | post_c2c_file _ file_type url => Some (file_type, url)
  | _ => None
  end.

(** The message is a channel message. *)
Definition is_channel (m : message) : bool :=
  match m with Message _ => true | _ => false end.

(** The message is a channel or a group message. *)
Definition is_c2c_free (m : message) : bool :=
  match m with C2CMessage _ => false | _ => true end.

(** The exception is one that [send] lets out on purpose or wraps. *)
Definition send_error_kind (e : exn) : Prop :=
  match e with
  | EmptyContentError _ _ | ContentTypeError _ _ | RuntimeError _ => True
  | _ => False
  end.

(** The exception is one that the media operations let out on purpose or
    wrap. *)
Definition media_error_kind (e : exn) : Prop :=
  match e with
  | EmptyContentError _ _ | ContentTypeError _ _ | IncompatibilityError _ _
  | RuntimeError _ => True
  | _ => False
  end.

(** An element of a handler list that [bind] made. *)
Definition is_bound (f : pyfunc) : Prop :=
  exists commands prefixes limitation func,
    f = Callable (wrapper commands prefixes limitation func).

Definition is_user_event (ev : event) : Prop :=
  match ev with EvCall _ _ _ => True | EvApi _ => False end.

(** The rows of a table are keyed by their open-id, their ids are positive,
    below the next id and pairwise distinct, and their counters are 1. *)
Definition table_ok (t : table) : Prop :=
  0 < auto_increment t
  /\ (forall id r, rows t !! id = Some r ->
        row_openid r = id /\ 0 < row_userid r < auto_increment t
        /\ row_message_number r = 1)
  /\ (forall id1 id2 r1 r2,
        rows t !! id1 = Some r1 -> rows t !! id2 = Some r2 ->
        row_userid r1 = row_userid r2 -> id1 = id2).

Definition database_ok (db : Database) : Prop :=
  table_ok (channel_table db) /\ table_ok (group_table db) /\ table_ok (c2c_table db).

(** The tables of two databases are the same. *)
Definition same_tables (db1 db2 : Database) : Prop :=
  channel_table db1 = channel_table db2
  /\ group_table db1 = group_table db2
  /\ c2c_table db1 = c2c_table db2.

(** The database after [insert_userinfo] was called for each message of a
    list, in order, whatever the calls gave. *)
Definition insert_all (ms : list message) (db : Database) : Database :=
  foldl (fun db m => snd (insert_userinfo (built m None) db)) db ms.

(** ** Further examples *)

Definition group_data (group text member : string) : GroupData :=
  {| gr_id := "m-9"; gr_group_openid := group; gr_content := text;
     gr_author_member_openid := member; gr_timestamp := EmptyString |}.

(** A transport that refuses every request. *)
Definition failing_transport (c : api_call) (n : nat) : outcome pyval * nat :=
  (Raised (OtherException "ServerError"), S n).

(** One step of the concatenation of strings, in a goal. *)
Ltac append_step :=
  repeat match goal with
    | |- context [String ?a ?p +:+ ?r] =>
        change (String a p +:+ r) with (String a (p +:+ r))
    | |- context [EmptyString +:+ ?r] => change (EmptyString +:+ r) with r
    end.

(** * Properties *)

(** ** Construction of the facade *)

Lemma TYPE_type_name (m : message) :
  TYPE !! type_name (OMessage m) = Some (audience_of m).
Proof. destruct m; reflexivity. Qed.

Lemma Callback_init_message (m : message) (appid : option string) :
  Callback_init (OMessage m) appid = Returned (built m appid).
Proof.
  unfold Callback_init. cbn [isinstance_message negb].
  now rewrite TYPE_type_name.
Qed.

(** C7. A [Callback] built from a channel, group or direct message carries
    the tag "channel", "group" or "c2c"; any other object is refused with
    [ContentTypeError]; and the tag of a constructed [Callback] is the one
    of the message it wraps. *)
Theorem Callback_init_audience :
  (forall d appid,
      Callback_init (OMessage (Message d)) appid
      = Returned {| msg_type := "channel"; msg_obj := Message d; bot_appid := appid |})
  /\ (forall d appid,
      Callback_init (OMessage (GroupMessage d)) appid
      = Returned {| msg_type := "group"; msg_obj := GroupMessage d; bot_appid := appid |})
  /\ (forall d appid,
      Callback_init (OMessage (C2CMessage d)) appid
      = Returned {| msg_type := "c2c"; msg_obj := C2CMessage d; bot_appid := appid |})
  /\ (forall class_name appid,
      Callback_init (OOther class_name) appid
      = Raised (ContentTypeError "错误的消息类型" 400))
  /\ (forall o appid cb,
      Callback_init o appid = Returned cb ->
      o = OMessage (msg_obj cb) /\ msg_type cb = audience_of (msg_obj cb)).
Proof.
  repeat split; intros; try apply Callback_init_message; try reflexivity.
  - destruct o as [m | n]; [| discriminate H].
    rewrite Callback_init_message in H. now inversion H.
  - destruct o as [m | n]; [| discriminate H].
    rewrite Callback_init_message in H. now inversion H.
Qed.

Lemma Callback_init_audience_witness :
  Callback_init (OMessage (group_msg "hello")) (Some "102030")
  = Returned (built (group_msg "hello") (Some "102030"))
  /\ msg_type (built (group_msg "hello") (Some "102030")) = "group".
Proof.
  split; [reflexivity |].
  destruct Callback_init_audience as (_ & _ & _ & _ & H).
  exact (proj2 (H (OMessage (group_msg "hello")) (Some "102030") _ eq_refl)).
Defined.

(** ** Parsing a command *)

Lemma command_parses cb pc :
  parses cb pc = true -> command cb pc true = VList (map VStr (arguments cb pc)).
Proof.
  unfold parses, content, command, arguments, content. intros ->. reflexivity.
Qed.

Lemma command_not_parses cb pc :
  parses cb pc = false -> command cb pc true = VStr (content cb).
Proof.
  unfold parses, content, command. intros ->. reflexivity.
Qed.

Lemma command_no_split cb prefix : command cb prefix false = VStr (content cb).
Proof. unfold command. now rewrite andb_false_r. Qed.

(** C3, as amended. On the content "/echo hello world" with the prefix "/",
    [command] returns the words after the prefix, the command word
    included; with [sep_params=False] it returns the trimmed content; on
    the content "hello" it returns "hello". *)
Theorem command_examples (cb : Callback) :
  (message_content (msg_obj cb) = "/echo hello world" ->
   command cb "/" true = VList [VStr "echo"; VStr "hello"; VStr "world"]
   /\ command cb "/" false = VStr "/echo hello world")
  /\ (message_content (msg_obj cb) = "hello" ->
      command cb "/" true = VStr "hello").
Proof.
  unfold command. split; intros ->; [split |]; reflexivity.
Qed.

Lemma command_examples_witness :
  message_content (msg_obj (callback_of (group_msg "/echo hello world")))
  = "/echo hello world"
  /\ command (callback_of (group_msg "/echo hello world")) "/" true
     = VList [VStr "echo"; VStr "hello"; VStr "world"]
  /\ command (callback_of (group_msg "/echo hello world")) "/" false
     = VStr "/echo hello world"
  /\ message_content (msg_obj (callback_of (c2c_msg "hello"))) = "hello"
  /\ command (callback_of (c2c_msg "hello")) "/" true = VStr "hello".
Proof.
  split; [reflexivity |].
  destruct (proj1 (command_examples (callback_of (group_msg "/echo hello world")))
              eq_refl) as [H1 H2].
  split; [exact H1 |]. split; [exact H2 |]. split; [reflexivity |].
  exact (proj2 (command_examples (callback_of (c2c_msg "hello"))) eq_refl).
Defined.

(** C3, as stated, fails: the list keeps the command word "echo". *)
Lemma command_keeps_the_command_word :
  let cb := callback_of (group_msg "/echo hello world") in
  message_content (msg_obj cb) = "/echo hello world"
  /\ command cb "/" true <> VList [VStr "hello"; VStr "world"].
Proof.
  intros cb. split; [reflexivity |]. vm_compute. discriminate.
Qed.

(** ** Running programs *)

Section RunFacts.

Context {W : Type}.
Variable user : string -> list pyval -> gmap string pyval -> W -> outcome pyval * W.
Variable transport : api_call -> W -> outcome pyval * W.

Lemma run_bind {A B} (p : prog A) (f : A -> prog B) (w : W) :
  run user transport (p ≫= f) w
  = match run user transport p w with
    | (Returned a, w1, t1) =>
        let '(r, w2, t2) := run user transport (f a) w1 in (r, w2, t1 ++ t2)
    | (Raised e, w1, t1) => (Raised e, w1, t1)
    end.
Proof.
  revert w. induction p as [a | e | fn args kwargs k IH | c k IH]; intros w.
  - cbn. destruct (run user transport (f a) w) as [[r w2] t2]. reflexivity.
  - reflexivity.
  - change (run user transport (Call fn args kwargs k ≫= f) w)
      with (let '(o, w1) := user fn args kwargs w in
            let '(r, w2, t) := run user transport (k o ≫= f) w1 in
            (r, w2, EvCall fn args kwargs :: t)).
    cbn [run]. destruct (user fn args kwargs w) as [o w1].
    rewrite IH. destruct (run user transport (k o) w1) as [[[a | e] w2] t];
      [| reflexivity].
    destruct (run user transport (f a) w2) as [[r w3] t3]. reflexivity.
  - change (run user transport (Api c k ≫= f) w)
      with (let '(o, w1) := transport c w in
            let '(r, w2, t) := run user transport (k o ≫= f) w1 in
            (r, w2, EvApi c :: t)).
    cbn [run]. destruct (transport c w) as [o w1].
    rewrite IH. destruct (run user transport (k o) w1) as [[[a | e] w2] t];
      [| reflexivity].
    destruct (run user transport (f a) w2) as [[r w3] t3]. reflexivity.
Qed.

(** A user function awaited with [return await]: its outcome is the
    caller's, and the call is the only event. *)
Lemma run_call_propagate f args kwargs (w : W) :
  run user transport (Call f args kwargs propagate) w
  = let '(o, w1) := user f args kwargs w in (o, w1, [EvCall f args kwargs]).
Proof.
  cbn. destruct (user f args kwargs w) as [[v | e] w1]; reflexivity.
Qed.

Lemma for_func_all_falsy cb fs w w' t :
  all_falsy user transport cb fs w w' t ->
  run user transport (for_func fs cb) w = (Returned (VBool false), w', t).
Proof.
  induction 1 as [w | v fs w w' t _ IH | h fs w v w1 t1 w2 t2 Hh Hv _ IH].
  - reflexivity.
  - exact IH.
  - cbn [for_func]. rewrite run_bind, Hh, Hv, IH. reflexivity.
Qed.

Lemma for_func_first_truthy cb before h after w w1 t1 v w2 t2 :
  all_falsy user transport cb before w w1 t1 ->
  run user transport (h [] (msg_obj_only cb)) w1 = (Returned v, w2, t2) ->
  truthy v = true ->
  run user transport (for_func (before ++ Callable h :: after) cb) w
  = (Returned (VBool true), w2, t1 ++ t2).
Proof.
  intros Hb Hh Hv.
  induction Hb as [w | u fs w w' t _ IH | g fs w u w1' t1' w2' t2' Hg Hu _ IH].
  - cbn [app for_func]. rewrite run_bind, Hh, Hv. cbn.
    now rewrite app_nil_r.
  - cbn [app for_func]. now apply IH.
  - cbn [app for_func]. rewrite run_bind, Hg, Hu, (IH Hh).
    now rewrite app_assoc.
Qed.

(** An exception of a handler ends the scan and is the caller's. *)
Lemma for_func_raise cb before h after w w1 t1 e w2 t2 :
  all_falsy user transport cb before w w1 t1 ->
  run user transport (h [] (msg_obj_only cb)) w1 = (Raised e, w2, t2) ->
  run user transport (for_func (before ++ Callable h :: after) cb) w
  = (Raised e, w2, t1 ++ t2).
Proof.
  intros Hb Hh.
  induction Hb as [w | u fs w w' t _ IH | g fs w u w1' t1' w2' t2' Hg Hu _ IH].
  - cbn [app for_func]. now rewrite run_bind, Hh.
  - cbn [app for_func]. now apply IH.
  - cbn [app for_func]. rewrite run_bind, Hg, Hu, (IH Hh).
    now rewrite app_assoc.
Qed.

End RunFacts.

(** ** The bound handler *)

Lemma py_or_list (l : list string) :
  py_or (VList (map VStr l)) (VStr "") = params_value l.
Proof. destruct l; reflexivity. Qed.

Lemma find_first_true {A} (P : A -> bool) (before : list A) x after :
  Forall (fun y => P y = false) before -> P x = true ->
  find P (before ++ x :: after) = Some x.
Proof.
  induction 1 as [| y before Hy _ IH]; intros Hx; cbn.
  - now rewrite Hx.
  - rewrite Hy. now apply IH.
Qed.

Lemma find_all_false {A} (P : A -> bool) (l : list A) :
  Forall (fun y => P y = false) l -> find P l = None.
Proof.
  induction 1 as [| y l Hy _ IH]; cbn; [reflexivity |]. now rewrite Hy.
Qed.

Lemma find_append {A} (P : A -> bool) (l1 l2 : list A) :
  find P (l1 ++ l2) = match find P l1 with Some x => Some x | None => find P l2 end.
Proof.
  induction l1 as [| y l1 IH]; cbn; [reflexivity |]. now destruct (P y).
Qed.

Section WrapperFacts.

Variables (commands prefixes limitation : list string) (func : string).
Variables (cb : Callback) (args : list pyval) (kwargs : gmap string pyval).

Lemma for_limit_in limits rest :
  msg_type cb ∈ limits -> for_limit limits cb rest = Ret (VBool false).
Proof.
  induction limits as [| limit limits IH]; intros Hin.
  - now apply elem_of_nil in Hin.
  - cbn. destruct (String.eqb_spec limit (msg_type cb)) as [| Hne]; [reflexivity |].
    apply elem_of_cons in Hin as [Heq | Hin]; [congruence | now apply IH].
Qed.

Lemma for_limit_not_in limits rest :
  msg_type cb ∉ limits -> for_limit limits cb rest = rest.
Proof.
  induction limits as [| limit limits IH]; intros Hin; [reflexivity |].
  cbn. apply not_elem_of_cons in Hin as [Hne Hin].
  destruct (String.eqb_spec limit (msg_type cb)) as [Heq | _]; [congruence |].
  now apply IH.
Qed.

Lemma for_command_find cmds prefix rest :
  for_command func cmds prefix cb args kwargs rest
  = match find (parses cb) (map (fun command_ => prefix +:+ command_) cmds) with
    | Some pc => invoke func cb args kwargs pc
    | None => rest
    end.
Proof.
  induction cmds as [| c cmds IH]; [reflexivity |].
  cbn [for_command map find].
  destruct (parses cb (prefix +:+ c)) eqn:Hp.
  - rewrite (command_parses _ _ Hp). cbn [isinstance_list].
    now rewrite py_or_list.
  - rewrite (command_not_parses _ _ Hp). cbn [isinstance_list]. exact IH.
Qed.

Lemma for_prefix_find pres :
  for_prefix commands func pres cb args kwargs
  = match find (parses cb) (attempts pres commands) with
    | Some pc => invoke func cb args kwargs pc
    | None => Ret (VBool false)
    end.
Proof.
  induction pres as [| p pres IH]; [reflexivity |].
  cbn [for_prefix attempts flat_map]. rewrite for_command_find, find_append.
  destruct (find (parses cb) (map _ commands)); [reflexivity | exact IH].
Qed.

Lemma wrapper_callback :
  kwargs_get kwargs "msg_obj" = VCallback cb ->
  wrapper commands prefixes limitation func args kwargs
  = for_limit limitation cb (for_prefix commands func prefixes cb args kwargs).
Proof. unfold wrapper. now intros ->. Qed.

End WrapperFacts.

(** C1, as amended. The entry that [bind] registers is the wrapper of its
    arguments.  Called on a [Callback]: when the audience tag is in the
    limitation list it returns [False] and the user function is not
    called; otherwise the first string prefix+command, in the order
    prefixes outside and commands inside, that the content starts with
    decides: the user function is awaited with [params] set to the split
    rest of the content, or to the empty string when nothing is left, and
    its outcome is the handler's; when the content starts with none of them
    the handler returns [False] and the user function is not called. *)
Theorem wrapper_dispatch self commands prefixes limitation func cb args kwargs :
  kwargs_get kwargs "msg_obj" = VCallback cb ->
  let w := wrapper commands prefixes limitation func args kwargs in
  snd (bind self commands prefixes limitation func)
  = Callable (wrapper commands prefixes limitation func)
  /\ (msg_type cb ∈ limitation -> w = Ret (VBool false))
  /\ (msg_type cb ∉ limitation ->
      (forall before pc after,
          attempts prefixes commands = before ++ pc :: after ->
          Forall (fun pc' => parses cb pc' = false) before ->
          parses cb pc = true ->
          w = Call func args
                (<["params" := params_value (arguments cb pc)]> kwargs) propagate)
      /\ (Forall (fun pc' => parses cb pc' = false) (attempts prefixes commands) ->
          w = Ret (VBool false))).
Proof.
  intros Hcb w. subst w. rewrite (wrapper_callback _ _ _ _ _ _ _ Hcb).
  split; [reflexivity |].
  split; [apply for_limit_in |].
  intros Hlim. rewrite for_limit_not_in by exact Hlim. rewrite for_prefix_find.
  split.
  - intros before pc after -> Hbefore Hpc.
    rewrite (find_first_true _ _ _ _ Hbefore Hpc). reflexivity.
  - intros Hnone. rewrite (find_all_false _ _ Hnone). reflexivity.
Qed.

Lemma wrapper_dispatch_witness :
  let cb := callback_of (group_msg "ping  now please ") in
  kwargs_get (msg_obj_only cb) "msg_obj" = VCallback cb
  /\ wrapper ["ping"; "pong"] ["/"; ""] ["channel"] "on_ping" [] (msg_obj_only cb)
     = Call "on_ping" []
         (<["params" := VList [VStr "now"; VStr "please"]]> (msg_obj_only cb)) propagate.
Proof.
  intros cb. split; [reflexivity |].
  destruct (wrapper_dispatch Session_init ["ping"; "pong"] ["/"; ""] ["channel"]
              "on_ping" cb [] (msg_obj_only cb) eq_refl) as (_ & _ & H).
  destruct H as [H _].
  - intros Hin. apply list_elem_of_singleton in Hin. discriminate Hin.
  - apply (H ["/ping"; "/pong"] "ping" ["pong"]).
    + reflexivity.
    + repeat constructor.
    + reflexivity.
Defined.

(** C1, as stated, fails: on the content "/ping" the handler bound to
    "ping" parses the empty list of arguments, and the user function
    receives the empty string, not that list. *)
Lemma wrapper_params_not_the_parsed_list :
  let cb := callback_of (group_msg "/ping") in
  parses cb "/ping" = true
  /\ command cb "/ping" true = VList []
  /\ wrapper ["ping"] ["/"; ""] [] "on_ping" [] (msg_obj_only cb)
     = Call "on_ping" [] (<["params" := VStr ""]> (msg_obj_only cb)) propagate
  /\ wrapper ["ping"] ["/"; ""] [] "on_ping" [] (msg_obj_only cb)
     <> Call "on_ping" []
          (<["params" := command cb "/ping" true]> (msg_obj_only cb)) propagate.
Proof.
  intros cb. repeat split.
  intros H.
  apply (f_equal (fun p : prog pyval =>
                    match p with
                    | Call _ _ kwargs _ => kwargs !! "params"
                    | _ => None
                    end)) in H.
  vm_compute in H. discriminate H.
Qed.

(** ** The router *)

Section ReduceFacts.

Context {W : Type}.
Variable user : string -> list pyval -> gmap string pyval -> W -> outcome pyval * W.
Variable transport : api_call -> W -> outcome pyval * W.

Lemma reduce_for_func self session callback funcs :
  session_handlers session = Some funcs ->
  reduce self session callback = for_func funcs (default self callback).
Proof.
  destruct session; cbn; intros H; inversion H; reflexivity.
Qed.

Lemma wrapper_no_parse commands func cb :
  Forall (fun pc => parses cb pc = false) (attempts default_prefixes commands) ->
  wrapper commands default_prefixes default_limitation func [] (msg_obj_only cb)
  = Ret (VBool false).
Proof.
  intros Hnone.
  rewrite (wrapper_callback _ _ _ _ cb) by reflexivity.
  cbn [default_limitation for_limit].
  rewrite for_prefix_find, (find_all_false _ _ Hnone). reflexivity.
Qed.

Lemma wrapper_some_parse commands func cb :
  Exists (fun pc => parses cb pc = true) (attempts default_prefixes commands) ->
  exists pc,
    In pc (attempts default_prefixes commands) /\ parses cb pc = true
    /\ wrapper commands default_prefixes default_limitation func [] (msg_obj_only cb)
       = Call func [] (<["params" := params_value (arguments cb pc)]> (msg_obj_only cb))
           propagate.
Proof.
  intros Hsome.
  rewrite (wrapper_callback _ _ _ _ cb) by reflexivity.
  cbn [default_limitation for_limit]. rewrite for_prefix_find.
  destruct (find (parses cb) (attempts default_prefixes commands)) as [pc |] eqn:Hfind.
  - apply find_some in Hfind as [Hin Hpc]. now exists pc.
  - exfalso. apply Exists_exists in Hsome as (pc & Hin & Hpc).
    apply list_elem_of_In in Hin.
    rewrite (find_none _ _ Hfind pc Hin) in Hpc. discriminate Hpc.
Qed.

(** C2. [reduce] calls the handlers of the session, or of the list, in
    their order.  When the handlers before [h] all returned a falsy value
    and [h] returns a truthy one, [reduce] returns [True] and nothing after
    [h] is called: the final state and the events are those of the handlers
    up to [h].  When every handler returned a falsy value, [reduce] returns
    [False].  With a handler bound to "ping" and then one bound to "pong",
    and a content that parses for "pong" only, the run calls the user
    function of the second handler once and no other. *)
Theorem reduce_first_match :
  (forall self session callback funcs,
      session_handlers session = Some funcs ->
      let cb := default self callback in
      (forall before h after w w1 t1 v w2 t2,
          funcs = before ++ Callable h :: after ->
          all_falsy user transport cb before w w1 t1 ->
          run user transport (h [] (msg_obj_only cb)) w1 = (Returned v, w2, t2) ->
          truthy v = true ->
          run user transport (reduce self session callback) w
          = (Returned (VBool true), w2, t1 ++ t2))
      /\ (forall w w' t,
          all_falsy user transport cb funcs w w' t ->
          run user transport (reduce self session callback) w
          = (Returned (VBool false), w', t)))
  /\ (forall on_ping on_pong self w,
      Forall (fun pc => parses self pc = false) (attempts default_prefixes ["ping"]) ->
      Exists (fun pc => parses self pc = true) (attempts default_prefixes ["pong"]) ->
      exists pc,
        In pc (attempts default_prefixes ["pong"]) /\ parses self pc = true /\
        let kwargs := <["params" := params_value (arguments self pc)]> (msg_obj_only self) in
        run user transport
          (reduce self (ASession (ping_pong_session on_ping on_pong)) None) w
        = let '(o, w') := user on_pong [] kwargs w in
          (match o with
           | Returned v => Returned (VBool (truthy v))
           | Raised e => Raised e
           end, w', [EvCall on_pong [] kwargs])).
Proof.
  split.
  - intros self session callback funcs Hs cb.
    rewrite (reduce_for_func _ _ _ _ Hs). fold cb. split.
    + intros before h after w w1 t1 v w2 t2 -> Hb Hh Hv.
      exact (for_func_first_truthy _ _ _ _ _ _ _ _ _ _ _ _ Hb Hh Hv).
    + intros w w' t Hall. exact (for_func_all_falsy _ _ _ _ _ _ _ Hall).
  - intros on_ping on_pong self w Hping Hpong.
    destruct (wrapper_some_parse ["pong"] on_pong self Hpong) as (pc & Hin & Hpc & Hw).
    exists pc. split; [exact Hin |]. split; [exact Hpc |]. intros kwargs.
    cbn [reduce default ping_pong_session bind fst Session_init _bind_function
           get_bind app for_func].
    rewrite (wrapper_no_parse ["ping"] on_ping self Hping).
    change (Ret (VBool false) ≫= ?f) with (f (VBool false)).
    cbn [truthy]. rewrite Hw. fold kwargs.
    cbn. destruct (user on_pong [] kwargs w) as [[v | e] w']; [| reflexivity].
    cbn. destruct (truthy v); reflexivity.
Qed.

End ReduceFacts.

Lemma reduce_first_match_witness :
  let cb := callback_of (group_msg "pong") in
  let funcs := [NotCallable (VInt 7); plain_handler "quiet"; plain_handler "on_pong";
                plain_handler "never"] in
  run counting_user counting_transport (reduce cb (AList funcs) None) 0%nat
  = (Returned (VBool true), 2%nat,
     [EvCall "quiet" [] (msg_obj_only cb)] ++ [EvCall "on_pong" [] (msg_obj_only cb)])
  /\ exists pc,
      In pc (attempts default_prefixes ["pong"]) /\ parses cb pc = true /\
      let kwargs := <["params" := params_value (arguments cb pc)]> (msg_obj_only cb) in
      run counting_user counting_transport
        (reduce cb (ASession (ping_pong_session "on_ping" "on_pong")) None) 0%nat
      = let '(o, w') := counting_user "on_pong" [] kwargs 0%nat in
        (match o with
         | Returned v => Returned (VBool (truthy v))
         | Raised e => Raised e
         end, w', [EvCall "on_pong" [] kwargs]).
Proof.
  intros cb funcs.
  destruct (reduce_first_match counting_user counting_transport) as [Hscan Hpp].
  split.
  - destruct (Hscan cb (AList funcs) None funcs eq_refl) as [Hfirst _].
    apply (Hfirst [NotCallable (VInt 7); plain_handler "quiet"]
             (fun args kwargs => Call "on_pong" args kwargs propagate)
             [plain_handler "never"] 0%nat 1%nat _ (VBool true)).
    + reflexivity.
    + apply all_falsy_skip.
      apply (all_falsy_call _ _ cb _ [] 0%nat VNone 1%nat
               [EvCall "quiet" [] (msg_obj_only cb)] 1%nat []).
      * reflexivity.
      * reflexivity.
      * apply all_falsy_nil.
    + reflexivity.
    + reflexivity.
  - apply Hpp.
    + repeat constructor.
    + apply Exists_cons_tl, Exists_cons_hd. reflexivity.
Defined.

(** ** The send operations *)

Section SendFacts.

Context {W : Type}.
Variable user : string -> list pyval -> gmap string pyval -> W -> outcome pyval * W.
Variable transport : api_call -> W -> outcome pyval * W.
Variable D : Defaults.

Lemma _send_media_channel_refused self d media_url media_type content_ seq :
  msg_obj self = Message d ->
  media_type = 2 \/ media_type = 3 ->
  _send_media D self media_url media_type content_ seq
  = Raise (IncompatibilityError "发送失败，该对象不可发送此类文件" 500).
Proof.
  unfold _send_media. intros -> [-> | ->]; reflexivity.
Qed.

Lemma _send_media_channel_image self d media_url media_type content_ seq :
  msg_obj self = Message d ->
  media_type <> 2 -> media_type <> 3 ->
  _send_media D self media_url media_type content_ seq
  = Raise (RuntimeError (NameError "url")).
Proof.
  unfold _send_media. intros -> H2 H3. cbn [existsb].
  apply Z.eqb_neq in H2, H3. rewrite H2, H3. reflexivity.
Qed.

(** C5. Sending a text with empty content raises [EmptyContentError],
    whatever the audience: no request reaches the transport and the state
    outside is the one before. *)
Theorem send_empty_content (self : Callback) (seq : option Z) (w : W) :
  send D self "" seq = Raise (EmptyContentError "消息不能为空" 200)
  /\ run user transport (send D self "" seq) w
     = (Raised (EmptyContentError "消息不能为空" 200), w, []).
Proof. split; reflexivity. Qed.

(** C6. On a [Callback] that wraps a channel message, [send_silk] and
    [send_video] raise [IncompatibilityError]: no request reaches the
    transport and the state outside is the one before. *)
Theorem channel_audio_video_refused (self : Callback) (d : ChannelData)
    (media_url : string) (seq : option Z) (w : W) :
  msg_obj self = Message d ->
  run user transport (send_silk D self media_url seq) w
  = (Raised (IncompatibilityError "发送失败，该对象不可发送此类文件" 500), w, [])
  /\ run user transport (send_video D self media_url seq) w
     = (Raised (IncompatibilityError "发送失败，该对象不可发送此类文件" 500), w, []).
Proof.
  intros Hm. unfold send_silk, send_video.
  rewrite !(_send_media_channel_refused _ d) by (exact Hm || auto).
  split; reflexivity.
Qed.

(** C8. On a [Callback] that wraps a channel message, the channel branch of
    [_send_media] for an image raises [RuntimeError] around the
    [NameError] of the unbound name [url], before any request; so
    [send_image] ends in an exception with no request to the transport:
    that [RuntimeError], or [EmptyContentError] when the caption is empty
    or left out. *)
Theorem channel_image_never_sent (self : Callback) (d : ChannelData)
    (image_url : string) (caption : option string) (seq : option Z) (w : W) :
  msg_obj self = Message d ->
  (forall content_ seq', _send_media D self image_url 1 content_ seq'
                         = Raise (RuntimeError (NameError "url")))
  /\ run user transport (send_image D self image_url caption seq) w
     = (Raised (if (PyStr.len (default "" caption) =? 0)%nat
                then EmptyContentError "消息不能为空" 500
                else RuntimeError (NameError "url")), w, []).
Proof.
  intros Hm.
  assert (Hmedia : forall content_ seq',
             _send_media D self image_url 1 content_ seq'
             = Raise (RuntimeError (NameError "url"))).
  { intros. now apply (_send_media_channel_image _ d). }
  split; [exact Hmedia |].
  unfold send_image. destruct (PyStr.len (default "" caption) =? 0)%nat; [reflexivity |].
  rewrite Hmedia. reflexivity.
Qed.

(** C9, on the code. [send_image] with the caption left out, or empty,
    raises [EmptyContentError] with the code 500 and no request reaches the
    transport. *)
Theorem send_image_without_caption (self : Callback) (image_url : string)
    (seq : option Z) (w : W) :
  run user transport (send_image D self image_url None seq) w
  = (Raised (EmptyContentError "消息不能为空" 500), w, [])
  /\ run user transport (send_image D self image_url (Some "") seq) w
     = (Raised (EmptyContentError "消息不能为空" 500), w, []).
Proof. split; reflexivity. Qed.

End SendFacts.

Lemma channel_audio_video_refused_witness :
  let cb := callback_of (channel_msg "hello") in
  msg_obj cb = Message (channel_data "hello")
  /\ run counting_user counting_transport
       (send_silk some_defaults cb "https://example.org/a.silk" None) 0%nat
     = (Raised (IncompatibilityError "发送失败，该对象不可发送此类文件" 500), 0%nat, [])
  /\ run counting_user counting_transport
       (send_video some_defaults cb "https://example.org/a.mp4" None) 0%nat
     = (Raised (IncompatibilityError "发送失败，该对象不可发送此类文件" 500), 0%nat, []).
Proof.
  intros cb. split; [reflexivity |].
  split.
  - exact (proj1 (channel_audio_video_refused counting_user counting_transport
                    some_defaults cb (channel_data "hello")
                    "https://example.org/a.silk" None 0%nat eq_refl)).
  - exact (proj2 (channel_audio_video_refused counting_user counting_transport
                    some_defaults cb (channel_data "hello")
                    "https://example.org/a.mp4" None 0%nat eq_refl)).
Defined.

Lemma channel_image_never_sent_witness :
  let cb := callback_of (channel_msg "hello") in
  msg_obj cb = Message (channel_data "hello")
  /\ run counting_user counting_transport
       (send_image some_defaults cb "https://example.org/a.png" (Some "look") None) 0%nat
     = (Raised (RuntimeError (NameError "url")), 0%nat, []).
Proof.
  intros cb. split; [reflexivity |].
  exact (proj2 (channel_image_never_sent counting_user counting_transport
                  some_defaults cb (channel_data "hello")
                  "https://example.org/a.png" (Some "look") None 0%nat eq_refl)).
Defined.

(** The sibling path: [_send_media] itself sends with an empty content,
    here an image to a group, in two requests. *)
Lemma _send_media_accepts_empty_content :
  run counting_user counting_transport
    (_send_media some_defaults (callback_of (group_msg "hello"))
       "https://example.org/a.png" 1 EmptyString None) 0%nat
  = (Returned VNone, 2%nat,
     [EvApi (post_group_file "group-1" 1 "https://example.org/a.png");
      EvApi (post_group_message "group-1" 7 EmptyString "m-1" 12
               (Some (VObj "response")))]).
Proof. reflexivity. Qed.

(** C10, on the code. Whatever the random source gives and whatever the
    transport answers, two calls of [send] that leave [seq] out carry the
    same sequence number, the one drawn when the class was defined; a
    caller's [seq] replaces it. *)
Theorem default_seq_drawn_once {W : Type}
    (user : string -> list pyval -> gmap string pyval -> W -> outcome pyval * W)
    (transport : api_call -> W -> outcome pyval * W)
    (g : RandomState) (w1 w2 w3 : W) (override : Z) :
  let D := fst (class_Callback g) in
  let cb := callback_of (group_msg "hello") in
  seqs (snd (run user transport (send D cb "first" None) w1)) = [Some (send_seq D)]
  /\ seqs (snd (run user transport (send D cb "second" None) w2)) = [Some (send_seq D)]
  /\ seqs (snd (run user transport (send D cb "third" (Some override)) w3))
     = [Some override]
  /\ send_seq D = 0 + draws g (taken g) mod (1000000 - 0 + 1).
Proof.
  intros D cb. unfold send. cbn.
  destruct (transport _ w1) as [[v1 | e1] w1'], (transport _ w2) as [[v2 | e2] w2'],
    (transport _ w3) as [[v3 | e3] w3']; cbn; repeat split.
Qed.

(** ** The user store *)

Lemma kind_of_table_audience m :
  kind_of_table (audience_of m +:+ "_table") = Some (audience_of m).
Proof. destruct m; reflexivity. Qed.

Lemma get_table_log kind s db : get_table kind (log s db) = get_table kind db.
Proof. unfold get_table. repeat case_match; reflexivity. Qed.

Lemma get_table_set_table m t db :
  get_table (audience_of m) (set_table (audience_of m) t db) = t.
Proof. destruct m; reflexivity. Qed.

Lemma count_inserts_log s db :
  count_inserts (log s db)
  = (count_inserts db + if is_insert s then 1 else 0)%nat.
Proof.
  unfold count_inserts, log. cbn [executed].
  rewrite filter_app, length_app. cbn.
  destruct (is_insert s); cbn.
  - rewrite decide_True by reflexivity. reflexivity.
  - rewrite decide_False by discriminate. reflexivity.
Qed.

Lemma get_userinfo_built m appid db :
  get_userinfo (built m appid) db
  = (Returned (BaseUser_of_row (audience_of m) <$> stored (built m appid) db),
     log (SELECT (audience_of m +:+ "_table") (user_openid (built m appid))) db).
Proof.
  unfold get_userinfo, try_RuntimeError, execute_select, stored.
  unfold mbind, db_mbind, mret, db_mret. cbn [msg_type built].
  rewrite kind_of_table_audience, get_table_log.
  destruct (rows (get_table (audience_of m) db) !! user_openid (built m appid));
    reflexivity.
Qed.

(** An [INSERT] with an open-id the table does not hold adds a row, whose
    id is the table's next one. *)
Lemma execute_insert_new table_name kind columns values id n db :
  let given : gmap string string := list_to_map (zip columns values) in
  let context := default None (INTERFACE !! kind) in
  kind_of_table table_name = Some kind ->
  given !! "openid" = Some id ->
  int_of_string <$> given !! "message_number" = Some (Some n) ->
  forallb (fun c => String.eqb c "openid" || String.eqb c "message_number"
                    || bool_decide (context = Some c)) columns = true ->
  rows (get_table kind db) !! id = None ->
  execute_insert table_name columns values db
  = (Returned tt,
     set_table kind
       {| rows := <[id := {| row_userid := auto_increment (get_table kind db);
                             row_openid := id;
                             row_message_number := n;
                             row_context := context ≫= (fun c => given !! c) |}]>
                    (rows (get_table kind db));
          auto_increment := auto_increment (get_table kind db) + 1 |}
       (log (INSERT table_name columns values) db)).
Proof.
  intros given context Hkind Hid Hn Hcols Hfresh.
  unfold execute_insert. rewrite Hkind. fold given. rewrite Hid, Hn.
  fold context. rewrite Hcols. cbn [negb]. rewrite !get_table_log, Hfresh.
  reflexivity.
Qed.

Lemma insert_userinfo_present m appid db r :
  stored (built m appid) db = Some r ->
  insert_userinfo (built m appid) db
  = (Returned (BaseUser_of_row (audience_of m) r),
     log (SELECT (audience_of m +:+ "_table") (user_openid (built m appid))) db).
Proof.
  intros Hs. unfold insert_userinfo. unfold mbind at 1. unfold db_mbind at 1.
  rewrite get_userinfo_built, Hs. reflexivity.
Qed.

Lemma insert_userinfo_absent m appid db :
  audience_of m <> "c2c" ->
  stored (built m appid) db = None ->
  insert_userinfo (built m appid) db
  = (Returned (fresh_snapshot (built m appid)), after_insert (built m appid) db).
Proof.
  intros Hkind Hs.
  unfold insert_userinfo. unfold mbind at 1. unfold db_mbind at 1.
  rewrite get_userinfo_built, Hs. cbn [fmap option_fmap option_map].
  unfold stored in Hs.
  unfold try_RuntimeError, mbind, db_mbind, mret, db_mret, commit.
  unfold after_insert, insert_statement, fresh_snapshot, new_row.
  destruct m as [d | d | d]; [| | now elim Hkind]; cbn in Hs;
    cbn [type_name msg_obj built context_of msg_type audience_of user_openid].
  - change (DB_TYPE !! "Message") with
      (Some ("channel",
             Lambda (fun obj => match obj with
                                | Message d => Returned (ch_channel_id d)
                                | _ => Raised (OtherException "AttributeError")
                                end))).
    cbn [call_coc truthy].
    destruct (String.eqb (ch_channel_id d) "") eqn:He; cbn [negb].
    + rewrite (execute_insert_new _ "channel" _ _ (ch_author_id d) 1)
        by (reflexivity || exact Hs).
      reflexivity.
    + rewrite (execute_insert_new _ "channel" _ _ (ch_author_id d) 1)
        by (reflexivity || exact Hs).
      reflexivity.
  - change (DB_TYPE !! "GroupMessage") with
      (Some ("group",
             Lambda (fun obj => match obj with
                                | GroupMessage d => Returned (gr_group_openid d)
                                | _ => Raised (OtherException "AttributeError")
                                end))).
    cbn [call_coc truthy].
    destruct (String.eqb (gr_group_openid d) "") eqn:He; cbn [negb].
    + rewrite (execute_insert_new _ "group" _ _ (gr_author_member_openid d) 1)
        by (reflexivity || exact Hs).
      reflexivity.
    + rewrite (execute_insert_new _ "group" _ _ (gr_author_member_openid d) 1)
        by (reflexivity || exact Hs).
      reflexivity.
Qed.

Lemma stored_after_insert m appid db :
  stored (built m appid) (after_insert (built m appid) db)
  = Some (new_row (built m appid) db).
Proof.
  unfold stored, after_insert. cbn [msg_type built].
  rewrite get_table_log, get_table_set_table. cbn [rows].
  apply lookup_insert_eq.
Qed.

Lemma executed_after_insert cb db :
  executed (after_insert cb db)
  = executed db
    ++ [SELECT (msg_type cb +:+ "_table") (user_openid cb); insert_statement cb; COMMIT].
Proof.
  unfold after_insert, set_table, log.
  repeat case_match; cbn [executed]; now rewrite <- !app_assoc.
Qed.

Lemma is_insert_insert_statement cb : is_insert (insert_statement cb) = true.
Proof. unfold insert_statement. repeat case_match; reflexivity. Qed.

Lemma count_inserts_after_insert cb db :
  count_inserts (after_insert cb db) = S (count_inserts db).
Proof.
  unfold count_inserts. rewrite executed_after_insert, filter_app, length_app.
  rewrite !filter_cons, filter_nil, is_insert_insert_statement. cbn [is_insert].
  rewrite decide_False by discriminate. rewrite decide_True by reflexivity.
  rewrite decide_False by discriminate. cbn [length]. lia.
Qed.

(** The slip on the direct audience: the entry of [DB_TYPE] for
    [C2CMessage] holds the string 'None' where a function is called, so a
    first call raises and inserts nothing. *)
Lemma insert_userinfo_c2c_raises d appid db :
  stored (built (C2CMessage d) appid) db = None ->
  insert_userinfo (built (C2CMessage d) appid) db
  = (Raised (RuntimeError (TypeError "'str' object is not callable")),
     log (SELECT "c2c_table" (c2_author_user_openid d)) db).
Proof.
  intros Hs. unfold insert_userinfo. unfold mbind at 1. unfold db_mbind at 1.
  rewrite get_userinfo_built, Hs. reflexivity.
Qed.

(** C4, as amended. For a [Callback] of the channel or the group audience:
    when the table holds a row for its open-id, [insert_userinfo] returns
    the snapshot of that row and only a [SELECT] is executed; when it holds
    none, [insert_userinfo] executes one [INSERT] of a row with the counter
    1 and returns a snapshot whose row id is left at 0; a second call then
    returns the snapshot of the stored row, with the same open-id and
    counter and with the row id the table gave, and executes no further
    [INSERT]. *)
Theorem insert_userinfo_read_or_create o appid cb db :
  Callback_init o appid = Returned cb ->
  msg_type cb <> "c2c" ->
  let kind := msg_type cb in
  let select := SELECT (kind +:+ "_table") (user_openid cb) in
  (forall r,
      stored cb db = Some r ->
      insert_userinfo cb db = (Returned (BaseUser_of_row kind r), log select db))
  /\ (stored cb db = None ->
      let db1 := after_insert cb db in
      let first := fresh_snapshot cb in
      let second := BaseUser_of_row kind (new_row cb db) in
      insert_userinfo cb db = (Returned first, db1)
      /\ executed db1 = executed db ++ [select; insert_statement cb; COMMIT]
      /\ count_inserts db1 = S (count_inserts db)
      /\ stored cb db1 = Some (new_row cb db)
      /\ insert_userinfo cb db1 = (Returned second, log select db1)
      /\ count_inserts (log select db1) = S (count_inserts db)
      /\ userid first = 0 /\ message_number first = 1
      /\ userid second = auto_increment (get_table kind db)
      /\ openid second = openid first
      /\ message_number second = message_number first).
Proof.
  intros Hinit Hkind.
  destruct o as [m | n]; [| discriminate Hinit].
  rewrite Callback_init_message in Hinit. injection Hinit as <-.
  intros kind select. split.
  - intros r Hs. exact (insert_userinfo_present m appid db r Hs).
  - intros Hs db1 first second.
    pose proof (stored_after_insert m appid db) as Hstored.
    repeat split.
    + exact (insert_userinfo_absent m appid db Hkind Hs).
    + apply executed_after_insert.
    + apply count_inserts_after_insert.
    + exact Hstored.
    + exact (insert_userinfo_present m appid _ _ Hstored).
    + rewrite count_inserts_log. cbn [is_insert select].
      unfold db1. rewrite count_inserts_after_insert. lia.
Qed.

Lemma insert_userinfo_read_or_create_witness :
  let cb := callback_of (group_msg "hello") in
  Callback_init (OMessage (group_msg "hello")) None = Returned cb
  /\ msg_type cb <> "c2c"
  /\ stored cb empty_database = None
  /\ insert_userinfo cb empty_database
     = (Returned (fresh_snapshot cb), after_insert cb empty_database)
  /\ count_inserts (after_insert cb empty_database) = 1%nat.
Proof.
  intros cb.
  assert (Hkind : msg_type cb <> "c2c") by discriminate.
  destruct (insert_userinfo_read_or_create (OMessage (group_msg "hello")) None cb
              empty_database eq_refl Hkind) as [_ H].
  destruct (H eq_refl) as (H1 & _ & H3 & _).
  split; [reflexivity |]. split; [exact Hkind |]. split; [reflexivity |].
  split; [exact H1 | exact H3].
Defined.

(** C4, as stated, fails: on an empty store the first call returns a
    snapshot without the row id and the second the stored row with its id,
    so the two snapshots differ, with one [INSERT] executed. *)
Lemma insert_userinfo_twice_not_identical :
  let cb := callback_of (channel_msg "hello") in
  exists first db1 second db2,
    insert_userinfo cb empty_database = (Returned first, db1)
    /\ insert_userinfo cb db1 = (Returned second, db2)
    /\ count_inserts db2 = 1%nat
    /\ userid first = 0 /\ userid second = 1
    /\ first <> second.
Proof.
  intros cb.
  destruct (insert_userinfo cb empty_database) as [o1 db1] eqn:H1.
  destruct (insert_userinfo cb db1) as [o2 db2] eqn:H2.
  vm_compute in H1. injection H1 as <- <-.
  vm_compute in H2. injection H2 as <- <-.
  eexists _, _, _, _. repeat split. discriminate.
Qed.

(** * Further properties *)

(** ** Trimming and splitting *)

Lemma lstrip_head s c s' : PyStr.lstrip s = String c s' -> PyStr.isspace c = false.
Proof.
  induction s as [| a s IH]; cbn; [discriminate |].
  destruct (PyStr.isspace a) eqn:Ha; [exact IH |].
  intros H. injection H as <- _. exact Ha.
Qed.

Lemma lstrip_fixed s :
  (forall c s', s = String c s' -> PyStr.isspace c = false) -> PyStr.lstrip s = s.
Proof.
  destruct s as [| c s]; [reflexivity |]. intros H. cbn.
  now rewrite (H c s eq_refl).
Qed.

Lemma rstrip_head s c s' :
  s = String c s' -> PyStr.isspace c = false ->
  exists r, PyStr.rstrip s = String c r.
Proof.
  intros -> Hc. cbn. destruct (PyStr.rstrip s') as [| a r].
  - rewrite Hc. now exists EmptyString.
  - now exists (String a r).
Qed.

Lemma rstrip_last s t c :
  PyStr.rstrip s = t +:+ String c EmptyString -> PyStr.isspace c = false.
Proof.
  revert t. induction s as [| a s IH]; intros t; cbn [PyStr.rstrip].
  - destruct t; append_step; discriminate.
  - destruct (PyStr.rstrip s) as [| b r] eqn:Hr.
    + destruct (PyStr.isspace a) eqn:Ha.
      * destruct t; append_step; discriminate.
      * destruct t as [| x t]; append_step; intros H.
        -- injection H as <-. exact Ha.
        -- injection H as _ H. destruct t; append_step; discriminate H.
    + destruct t as [| x t]; append_step; intros H.
      * injection H as _ H. discriminate H.
      * injection H as _ H. exact (IH t H).
Qed.

Lemma rstrip_idem s : PyStr.rstrip (PyStr.rstrip s) = PyStr.rstrip s.
Proof.
  induction s as [| a s IH]; [reflexivity |]. cbn.
  destruct (PyStr.rstrip s) as [| b r] eqn:Hr.
  - destruct (PyStr.isspace a) eqn:Ha; [reflexivity |]. cbn. now rewrite Ha.
  - change (PyStr.rstrip (String a (String b r)))
      with (match PyStr.rstrip (String b r) with
            | EmptyString => if PyStr.isspace a then EmptyString else String a EmptyString
            | r' => String a r'
            end).
    rewrite IH. reflexivity.
Qed.

Lemma strip_idem s : PyStr.strip (PyStr.strip s) = PyStr.strip s.
Proof.
  unfold PyStr.strip.
  assert (H : PyStr.lstrip (PyStr.rstrip (PyStr.lstrip s)) = PyStr.rstrip (PyStr.lstrip s)).
  { apply lstrip_fixed. intros c s' Hr.
    destruct (PyStr.lstrip s) as [| a u] eqn:Hu; [discriminate Hr |].
    pose proof (lstrip_head _ _ _ Hu) as Ha.
    destruct (rstrip_head _ a u eq_refl Ha) as [r Hr'].
    rewrite Hr' in Hr. injection Hr as <- _. exact Ha. }
  rewrite H. apply rstrip_idem.
Qed.

Lemma strip_head s c s' : PyStr.strip s = String c s' -> PyStr.isspace c = false.
Proof.
  unfold PyStr.strip. intros Hr.
  destruct (PyStr.lstrip s) as [| a u] eqn:Hu; [discriminate Hr |].
  pose proof (lstrip_head _ _ _ Hu) as Ha.
  destruct (rstrip_head _ a u eq_refl Ha) as [r Hr'].
  rewrite Hr' in Hr. injection Hr as <- _. exact Ha.
Qed.

Lemma startswith_append p r : PyStr.startswith (p +:+ r) p = true.
Proof.
  induction p as [| a p IH]; append_step; [now destruct r |].
  cbn [PyStr.startswith]. now rewrite Ascii.eqb_refl.
Qed.

Lemma slice_from_append p r : PyStr.slice_from (PyStr.len p) (p +:+ r) = r.
Proof. induction p as [| a p IH]; append_step; [reflexivity | exact IH]. Qed.

Lemma startswith_split s p :
  PyStr.startswith s p = true -> s = p +:+ PyStr.slice_from (PyStr.len p) s.
Proof.
  revert s. induction p as [| a p IH]; intros s; [reflexivity |].
  destruct s as [| b s]; cbn [PyStr.startswith]; [discriminate |].
  destruct (Ascii.eqb_spec a b) as [<- |]; [| discriminate].
  intros H. append_step. cbn [PyStr.len String.length PyStr.slice_from].
  f_equal. exact (IH s H).
Qed.

Lemma split_aux_lstrip s : PyStr.split_aux (PyStr.lstrip s) [] = PyStr.split_aux s [].
Proof.
  induction s as [| a s IH]; [reflexivity |]. cbn.
  destruct (PyStr.isspace a) eqn:Ha; [exact IH |]. cbn. now rewrite Ha.
Qed.

Lemma split_aux_step a s cur :
  PyStr.split_aux (String a s) cur
  = if PyStr.isspace a then
      match cur with
      | [] => PyStr.split_aux s []
      | _ => string_of_list_ascii (rev cur) :: PyStr.split_aux s []
      end
    else PyStr.split_aux s (a :: cur).
Proof. reflexivity. Qed.

Lemma split_aux_rstrip s cur :
  PyStr.split_aux (PyStr.rstrip s) cur = PyStr.split_aux s cur.
Proof.
  revert cur. induction s as [| a s IH]; intros cur; [reflexivity |].
  cbn [PyStr.rstrip]. rewrite (split_aux_step a s cur).
  destruct (PyStr.rstrip s) as [| b r] eqn:Hr.
  - rewrite <- !IH. destruct (PyStr.isspace a) eqn:Ha.
    + now destruct cur.
    + cbn. now rewrite Ha.
  - rewrite (split_aux_step a (String b r) cur), !IH. reflexivity.
Qed.

Lemma split_strip s : PyStr.split (PyStr.strip s) = PyStr.split s.
Proof.
  unfold PyStr.split, PyStr.strip. now rewrite split_aux_rstrip, split_aux_lstrip.
Qed.

Lemma string_of_list_ascii_nil l : string_of_list_ascii l = EmptyString -> l = [].
Proof. destruct l; [reflexivity | discriminate]. Qed.

Lemma split_aux_words s cur :
  Forall (fun c => PyStr.isspace c = false) cur ->
  Forall (fun w => w <> EmptyString /\ no_space w = true) (PyStr.split_aux s cur).
Proof.
  assert (Hword : forall cur : list ascii,
             cur <> [] -> Forall (fun c => PyStr.isspace c = false) cur ->
             string_of_list_ascii (rev cur) <> EmptyString
             /\ no_space (string_of_list_ascii (rev cur)) = true).
  { intros l Hne Hl. split.
    - intros H. apply string_of_list_ascii_nil in H.
      apply (f_equal (@rev ascii)) in H. rewrite rev_involutive in H. now apply Hne.
    - unfold no_space. rewrite list_ascii_of_string_of_list_ascii.
      apply forallb_forall. intros c Hc. apply in_rev in Hc.
      rewrite Forall_forall in Hl. apply list_elem_of_In in Hc.
      now rewrite (Hl c Hc). }
  revert cur. induction s as [| a s IH]; intros cur Hcur; cbn.
  - destruct cur as [| c cur]; [constructor |].
    constructor; [| constructor]. now apply Hword.
  - destruct (PyStr.isspace a) eqn:Ha.
    + destruct cur as [| c cur]; [apply IH; constructor |].
      constructor; [now apply Hword | apply IH; constructor].
    + apply IH. now constructor.
Qed.

(** X6. The content of a [Callback] is trimmed: stripping it again changes
    nothing, and neither its first nor its last character is white
    space. *)
Theorem content_is_trimmed (cb : Callback) :
  PyStr.strip (content cb) = content cb
  /\ (forall c s, content cb = String c s -> PyStr.isspace c = false)
  /\ (forall s c, content cb = s +:+ String c EmptyString -> PyStr.isspace c = false).
Proof.
  unfold content. split; [apply strip_idem |]. split.
  - intros c s. apply strip_head.
  - intros s c. unfold PyStr.strip. apply rstrip_last.
Qed.

(** X7. [command] against the trimmed content: when the content is the
    prefix followed by [rest], the result is the list of the words of
    [rest]; when the content does not start with the prefix, or when
    [sep_params] is false, the result is the content. *)
Theorem command_splits_the_rest (cb : Callback) (prefix : string) :
  (forall rest,
      content cb = prefix +:+ rest ->
      command cb prefix true = VList (VStr <$> PyStr.split rest))
  /\ ((forall rest, content cb <> prefix +:+ rest) ->
      command cb prefix true = VStr (content cb))
  /\ command cb prefix false = VStr (content cb).
Proof.
  split; [| split].
  - intros rest Hc.
    assert (Hp : parses cb prefix = true).
    { unfold parses. rewrite Hc. apply startswith_append. }
    rewrite (command_parses _ _ Hp). unfold arguments.
    now rewrite Hc, slice_from_append, split_strip.
  - intros Hno. apply command_not_parses.
    destruct (parses cb prefix) eqn:Hp; [| reflexivity].
    elim (Hno _ (startswith_split _ _ Hp)).
  - apply command_no_split.
Qed.

Lemma command_splits_the_rest_witness :
  content (callback_of (c2c_msg "  !roll 2d6   +1 ")) = "!" +:+ "roll 2d6   +1"
  /\ command (callback_of (c2c_msg "  !roll 2d6   +1 ")) "!" true
     = VList [VStr "roll"; VStr "2d6"; VStr "+1"].
Proof.
  split; [reflexivity |].
  exact (proj1 (command_splits_the_rest (callback_of (c2c_msg "  !roll 2d6   +1 ")) "!")
           "roll 2d6   +1" eq_refl).
Defined.

(** X8. Every element of a list that [command] returns is a string that
    is not empty and holds no white space. *)
Theorem command_words (cb : Callback) (prefix : string) (sep_params : bool)
    (l : list pyval) :
  command cb prefix sep_params = VList l ->
  Forall (fun v => exists w, v = VStr w /\ w <> EmptyString /\ no_space w = true) l.
Proof.
  unfold command.
  destruct (PyStr.startswith _ prefix && sep_params); [| discriminate].
  intros H. injection H as <-.
  apply Forall_fmap. eapply Forall_impl; [apply split_aux_words; constructor |].
  intros w [Hw1 Hw2]. cbn. now exists w.
Qed.

Lemma command_words_witness :
  command (callback_of (group_msg "/echo  a b")) "/" true
  = VList [VStr "echo"; VStr "a"; VStr "b"]
  /\ Forall (fun v => exists w, v = VStr w /\ w <> EmptyString /\ no_space w = true)
       [VStr "echo"; VStr "a"; VStr "b"].
Proof.
  split; [reflexivity |].
  exact (command_words (callback_of (group_msg "/echo  a b")) "/" true _ eq_refl).
Defined.

Lemma content_is_trimmed_witness :
  content (callback_of (group_msg "  hi there ")) = String "h" "i there"
  /\ PyStr.isspace "h" = false.
Proof.
  split; [reflexivity |].
  exact (proj1 (proj2 (content_is_trimmed (callback_of (group_msg "  hi there "))))
           "h"%char "i there" eq_refl).
Defined.

(** ** The bound handler and the router, further *)

(** X2. A run of a bound handler, whatever its keyword arguments: either
    nothing happens outside and it returns [False] or raises
    [BindCommandError] with the code 100; or the first truthy of the
    arguments [msg_obj] and [callback] is a [Callback] whose tag is not
    limited and whose content parses, the only event is one call of the
    user function with [params] added to the keyword arguments, and the
    outcome and the state are those of that call.  No request goes to the
    transport. *)
Theorem wrapper_run_shape {W : Type}
    (user : string -> list pyval -> gmap string pyval -> W -> outcome pyval * W)
    (transport : api_call -> W -> outcome pyval * W)
    (commands prefixes limitation : list string) (func : string)
    (args : list pyval) (kwargs : gmap string pyval) (w : W) :
  let '(o, w', t) :=
    run user transport (wrapper commands prefixes limitation func args kwargs) w in
  (t = [] /\ w' = w
   /\ (o = Returned (VBool false) \/ exists msg, o = Raised (BindCommandError msg 100)))
  \/ (exists cb pc,
        py_or (kwargs_get kwargs "msg_obj") (kwargs_get kwargs "callback") = VCallback cb
        /\ (msg_type cb ∉ limitation)
        /\ In pc (attempts prefixes commands) /\ parses cb pc = true
        /\ let kwargs' := <["params" := params_value (arguments cb pc)]> kwargs in
           t = [EvCall func args kwargs'] /\ (o, w') = user func args kwargs' w).
Proof.
  unfold wrapper.
  destruct (py_or (kwargs_get kwargs "msg_obj") (kwargs_get kwargs "callback"))
    as [| b | z | s | l | l | cb | r] eqn:Hsel;
    try (left; cbn; repeat split; right; eexists; reflexivity).
  destruct (decide (msg_type cb ∈ limitation)) as [Hin | Hout].
  - rewrite (for_limit_in _ _ _ Hin). left. cbn. auto.
  - rewrite (for_limit_not_in _ _ _ Hout), for_prefix_find.
    destruct (find (parses cb) (attempts prefixes commands)) as [pc |] eqn:Hfind.
    + apply find_some in Hfind as [Hpc Hparse].
      unfold invoke. rewrite run_call_propagate.
      destruct (user func args _ w) as [o w'] eqn:Hu.
      right. exists cb, pc. repeat split; auto.
    + left. cbn. auto.
Qed.

Lemma wrapper_run_events {W : Type}
    (user : string -> list pyval -> gmap string pyval -> W -> outcome pyval * W)
    (transport : api_call -> W -> outcome pyval * W)
    (commands prefixes limitation : list string) (func : string)
    (args : list pyval) (kwargs : gmap string pyval) (w : W) :
  let t := snd (run user transport
                  (wrapper commands prefixes limitation func args kwargs) w) in
  Forall is_user_event t /\ (length t <= 1)%nat.
Proof.
  unfold wrapper.
  destruct (py_or (kwargs_get kwargs "msg_obj") (kwargs_get kwargs "callback"))
    as [| b | z | s | l | l | cb | r];
    try (cbn; split; [constructor | lia]).
  destruct (decide (msg_type cb ∈ limitation)) as [Hin | Hout].
  - rewrite (for_limit_in _ _ _ Hin). cbn. split; [constructor | lia].
  - rewrite (for_limit_not_in _ _ _ Hout), for_prefix_find.
    destruct (find (parses cb) (attempts prefixes commands)) as [pc |].
    + unfold invoke. rewrite run_call_propagate.
      destruct (user func args _ w) as [o w']. cbn.
      split; [repeat constructor | lia].
    + cbn. split; [constructor | lia].
Qed.

Lemma for_func_outcome_is_bool {W : Type}
    (user : string -> list pyval -> gmap string pyval -> W -> outcome pyval * W)
    (transport : api_call -> W -> outcome pyval * W)
    (funcs : list pyfunc) (cb : Callback) (w : W) v w' t :
  run user transport (for_func funcs cb) w = (Returned v, w', t) ->
  v = VBool true \/ v = VBool false.
Proof.
  revert w w' t. induction funcs as [| [h | u] funcs IH]; intros w w' t.
  - cbn. intros H. injection H as <- _ _. now right.
  - cbn [for_func]. rewrite run_bind.
    destruct (run user transport (h [] (msg_obj_only cb)) w) as [[[r | e] w1] t1];
      [| discriminate].
    destruct (truthy r).
    + cbn. intros H. injection H as <- _ _. now left.
    + destruct (run user transport (for_func funcs cb) w1) as [[o w2] t2] eqn:Hrest.
      intros H. injection H as -> _ _. exact (IH _ _ _ Hrest).
  - exact (IH w w' t).
Qed.

(** X3. What [reduce] returns is [True] or [False], whatever the handlers
    return. *)
Theorem reduce_outcome_is_bool {W : Type}
    (user : string -> list pyval -> gmap string pyval -> W -> outcome pyval * W)
    (transport : api_call -> W -> outcome pyval * W)
    (self : Callback) (session : session_arg) (callback : option Callback)
    (w w' : W) (v : pyval) (t : list event) :
  run user transport (reduce self session callback) w = (Returned v, w', t) ->
  v = VBool true \/ v = VBool false.
Proof.
  destruct session as [s | l | u]; cbn [reduce]; [| | discriminate];
    apply for_func_outcome_is_bool.
Qed.

Lemma reduce_outcome_is_bool_witness :
  let cb := callback_of (group_msg "pong") in
  run counting_user counting_transport
    (reduce cb (AList [plain_handler "quiet"; plain_handler "on_pong"]) None) 0%nat
  = (Returned (VBool true), 2%nat,
     [EvCall "quiet" [] (msg_obj_only cb); EvCall "on_pong" [] (msg_obj_only cb)])
  /\ (VBool true = VBool true \/ VBool true = VBool false).
Proof.
  intros cb. split; [reflexivity |].
  exact (reduce_outcome_is_bool counting_user counting_transport cb
           (AList [plain_handler "quiet"; plain_handler "on_pong"]) None
           0%nat 2%nat (VBool true) _ eq_refl).
Defined.

(** X4. When the handlers before [h] all returned a falsy value and [h]
    raises, [reduce] raises the same exception and calls nothing after
    [h]: the state and the events are those of the handlers up to [h]. *)
Theorem reduce_handler_exception {W : Type}
    (user : string -> list pyval -> gmap string pyval -> W -> outcome pyval * W)
    (transport : api_call -> W -> outcome pyval * W)
    (self : Callback) (session : session_arg) (callback : option Callback)
    (before after : list pyfunc) h (w w1 w2 : W) (t1 t2 : list event) (e : exn) :
  session_handlers session = Some (before ++ Callable h :: after) ->
  all_falsy user transport (default self callback) before w w1 t1 ->
  run user transport (h [] (msg_obj_only (default self callback))) w1 = (Raised e, w2, t2) ->
  run user transport (reduce self session callback) w = (Raised e, w2, t1 ++ t2).
Proof.
  intros Hs Hb Hh. rewrite (reduce_for_func _ _ _ _ Hs).
  exact (for_func_raise _ _ _ _ _ _ _ _ _ _ _ _ Hb Hh).
Qed.

Lemma reduce_handler_exception_witness :
  let cb := callback_of (group_msg "pong") in
  run counting_user counting_transport
    (reduce cb (AList [plain_handler "quiet"; plain_handler "broken";
                       plain_handler "on_pong"]) None) 0%nat
  = (Raised (OtherException "broken"), 2%nat,
     [EvCall "quiet" [] (msg_obj_only cb)] ++ [EvCall "broken" [] (msg_obj_only cb)]).
Proof.
  intros cb.
  apply (reduce_handler_exception counting_user counting_transport cb _ None
           [plain_handler "quiet"]
           [plain_handler "on_pong"]
           (fun args kwargs => Call "broken" args kwargs propagate)
           0%nat 1%nat 2%nat).
  - reflexivity.
  - apply (all_falsy_call _ _ cb _ [] 0%nat VNone 1%nat
             [EvCall "quiet" [] (msg_obj_only cb)] 1%nat []).
    + reflexivity.
    + reflexivity.
    + apply all_falsy_nil.
  - reflexivity.
Defined.

(** X5. A run of [reduce] over a session, whose handlers all come from
    [bind], sends no request to the transport itself and calls at most one
    user function for each handler. *)
Theorem reduce_session_events {W : Type}
    (user : string -> list pyval -> gmap string pyval -> W -> outcome pyval * W)
    (transport : api_call -> W -> outcome pyval * W)
    (self : Callback) (s : Session) (callback : option Callback)
    (w w' : W) (o : outcome pyval) (t : list event) :
  Forall is_bound (get_bind s) ->
  run user transport (reduce self (ASession s) callback) w = (o, w', t) ->
  Forall is_user_event t /\ (length t <= length (get_bind s))%nat.
Proof.
  cbn [reduce]. generalize (default self callback) as cb.
  generalize (get_bind s) as funcs. intros funcs cb Hb.
  revert w o w' t. induction Hb as [| f funcs Hf _ IH]; intros w o w' t.
  - cbn. intros H. injection H as _ _ <-. split; [constructor | reflexivity].
  - destruct Hf as (commands & prefixes & limitation & func & ->).
    cbn [for_func]. rewrite run_bind.
    pose proof (wrapper_run_events user transport commands prefixes limitation func []
                  (msg_obj_only cb) w) as Hshape.
    destruct (run user transport _ w) as [[r w1] t1].
    destruct Hshape as [Hev Hlen]. cbn [snd] in Hev, Hlen.
    destruct r as [v | e].
    + destruct (truthy v).
      * cbn. intros H. injection H as _ _ <-. rewrite app_nil_r.
        split; [exact Hev | cbn; lia].
      * destruct (run user transport (for_func funcs cb) w1) as [[o2 w2] t2] eqn:Hrest.
        destruct (IH _ _ _ _ Hrest) as [Hev2 Hlen2].
        intros H. injection H as _ _ <-.
        split; [now apply Forall_app | rewrite length_app; cbn; lia].
    + intros H. injection H as _ _ <-. split; [exact Hev | cbn; lia].
Qed.

Lemma reduce_session_events_witness :
  let cb := callback_of (group_msg "pong") in
  let s := ping_pong_session "on_ping" "on_pong" in
  Forall is_bound (get_bind s)
  /\ Forall is_user_event
       (snd (run counting_user counting_transport (reduce cb (ASession s) None) 0%nat))
  /\ (length (snd (run counting_user counting_transport
                     (reduce cb (ASession s) None) 0%nat)) <= 2)%nat.
Proof.
  intros cb s.
  assert (Hb : Forall is_bound (get_bind s)).
  { repeat constructor; do 4 eexists; reflexivity. }
  split; [exact Hb |].
  destruct (run counting_user counting_transport (reduce cb (ASession s) None) 0%nat)
    as [[o w'] t] eqn:Hrun.
  exact (reduce_session_events counting_user counting_transport cb s None
           0%nat w' o t Hb Hrun).
Defined.

Lemma run_for_func_app {W : Type}
    (user : string -> list pyval -> gmap string pyval -> W -> outcome pyval * W)
    (transport : api_call -> W -> outcome pyval * W)
    (l1 l2 : list pyfunc) (cb : Callback) (w : W) :
  run user transport (for_func (l1 ++ l2) cb) w
  = match run user transport (for_func l1 cb) w with
    | (Returned v, w1, t1) =>
        if truthy v then (Returned v, w1, t1)
        else let '(r, w2, t2) := run user transport (for_func l2 cb) w1 in
             (r, w2, t1 ++ t2)
    | (Raised e, w1, t1) => (Raised e, w1, t1)
    end.
Proof.
  revert w. induction l1 as [| [h | u] l1 IH]; intros w.
  - cbn. now destruct (run user transport (for_func l2 cb) w) as [[r w2] t2].
  - cbn [app for_func]. rewrite !run_bind.
    destruct (run user transport (h [] (msg_obj_only cb)) w) as [[[r | e] w1] t1];
      [| reflexivity].
    destruct (truthy r); [reflexivity |].
    rewrite IH.
    destruct (run user transport (for_func l1 cb) w1) as [[[v | e] w2] t2];
      [| reflexivity].
    destruct (truthy v); [reflexivity |].
    destruct (run user transport (for_func l2 cb) w2) as [[r3 w3] t3].
    now rewrite app_assoc.
  - exact (IH w).
Qed.

(** X1. [fusion] puts the handlers of [self] first and skips the arguments
    that are no [Session]; so [reduce] over the fused list is [reduce] over
    [self], and only when that returned [False], [reduce] over the handlers
    of the other sessions, from the state the first scan left. *)
Theorem fusion_precedence {W : Type}
    (user : string -> list pyval -> gmap string pyval -> W -> outcome pyval * W)
    (transport : api_call -> W -> outcome pyval * W)
    (self : Session) (sessions : list session_arg) (cb : Callback) (w : W) :
  (forall l, fusion self (AList l :: sessions) = fusion self sessions)
  /\ (forall v, fusion self (AOther v :: sessions) = fusion self sessions)
  /\ (forall s, fusion self (ASession s :: sessions)
                = get_bind self ++ get_bind s ++ fusion Session_init sessions)
  /\ run user transport (reduce cb (AList (fusion self sessions)) None) w
     = match run user transport (reduce cb (ASession self) None) w with
       | (Returned v, w1, t1) =>
           if truthy v then (Returned v, w1, t1)
           else
             let '(r, w2, t2) :=
               run user transport
                 (reduce cb (AList (fusion Session_init sessions)) None) w1 in
             (r, w2, t1 ++ t2)
       | (Raised e, w1, t1) => (Raised e, w1, t1)
       end.
Proof.
  repeat split.
  cbn [reduce default]. unfold fusion at 1. apply run_for_func_app.
Qed.

(** ** The send operations, further *)

Lemma randint_in_range a b g : a <= b -> a <= fst (randint a b g) <= b.
Proof.
  intros Hab. unfold randint. cbn [fst].
  pose proof (Z.mod_pos_bound (draws g (taken g)) (b - a + 1)). lia.
Qed.

(** The five default sequence numbers that the class definition draws lie
    in the ranges of their [randint]: 0 to 1000000 for [send], 1 to
    1000000 for the others; five numbers of the source are taken. *)
Lemma class_Callback_defaults_in_range (g : RandomState) :
  let '(D, g') := class_Callback g in
  0 <= send_seq D <= 1000000
  /\ 1 <= _send_media_seq D <= 1000000
  /\ 1 <= send_image_seq D <= 1000000
  /\ 1 <= send_silk_seq D <= 1000000
  /\ 1 <= send_video_seq D <= 1000000
  /\ taken g' = (taken g + 5)%nat
  /\ draws g' = draws g.
Proof.
  unfold class_Callback, randint. cbn.
  repeat match goal with
         | |- context [?x mod ?m] =>
             lazymatch goal with
             | _ : 0 <= x mod m < m |- _ => fail
             | _ => pose proof (Z.mod_pos_bound x m ltac:(lia))
             end
         end.
  repeat split; try lia.
Qed.

Lemma send_except_kind e :
  is_Exception (send_except e) = true -> send_error_kind (send_except e).
Proof. destruct e; cbn; auto; discriminate. Qed.

Lemma media_except_kind e :
  is_Exception (media_except e) = true -> media_error_kind (media_except e).
Proof. destruct e; cbn; auto; discriminate. Qed.

Section SendFurther.

Context {W : Type}.
Variable user : string -> list pyval -> gmap string pyval -> W -> outcome pyval * W.
Variable transport : api_call -> W -> outcome pyval * W.
Variable D : Defaults.


(** X10. An exception that [send] raises, if it is an [Exception] at all,
    is [EmptyContentError], [ContentTypeError] or [RuntimeError]: whatever
    else the transport raises is wrapped. *)
Theorem send_error_kinds (self : Callback) (content_ : string) (seq : option Z)
    (w w' : W) (e : exn) (t : list event) :
  run user transport (send D self content_ seq) w = (Raised e, w', t) ->
  is_Exception e = true ->
  send_error_kind e.
Proof.
  unfold send. destruct content_ as [| a s].
  - cbn. intros H _. injection H as <- _ _. exact I.
  - cbn [PyStr.len String.length Nat.eqb].
    destruct (msg_obj self) as [d | d | d]; cbn;
      match goal with
      | |- context [transport ?c w] => destruct (transport c w) as [[v | e0] w1]
      end; try discriminate;
      intros H; injection H as <- _ _; apply send_except_kind.
Qed.

(** X11. Outside a channel, [_send_media] first uploads the file, with the
    given type and address.  When the upload raises, no message is posted
    and the exception, as the handlers make it, is raised.  When it
    returns, one message is posted: it carries what the upload returned as
    its media, the content, the id of the inbound message and the caller's
    [seq] or the default. *)
Theorem send_media_upload_first (self : Callback) (media_url : string)
    (media_type : Z) (content_ : string) (seq : option Z) (w : W) :
  is_channel (msg_obj self) = false ->
  exists up,
    request_upload up = Some (media_type, media_url)
    /\ match transport up w with
       | (Raised e, w1) =>
           run user transport (_send_media D self media_url media_type content_ seq) w
           = (Raised (media_except e), w1, [EvApi up])
       | (Returned media, w1) =>
           exists msg,
             request_media msg = Some media
             /\ request_content msg = Some content_
             /\ request_msg_id msg = Some (message_id (msg_obj self))
             /\ msg_seq_of msg = Some (default (_send_media_seq D) seq)
             /\ run user transport
                  (_send_media D self media_url media_type content_ seq) w
                = let '(o, w2) := transport msg w1 in
                  (match o with
                   | Returned _ => Returned VNone
                   | Raised e => Raised (media_except e)
                   end, w2, [EvApi up; EvApi msg])
       end.
Proof.
  unfold _send_media. destruct (msg_obj self) as [d | d | d]; [discriminate | |];
    intros _;
    match goal with |- context [Api ?c _] => exists c end;
    (split; [reflexivity |]); cbn;
    match goal with
    | |- context [transport ?c w] => destruct (transport c w) as [[media | e] w1]
    end; try reflexivity;
    match goal with |- context [Api ?c _] => exists c end;
    (repeat split); cbn;
    match goal with
    | |- context [transport ?c ?x] => destruct (transport c x) as [[v | e] w2]
    end; reflexivity.
Qed.

Lemma _send_media_raises self media_url media_type content_ seq (w w' : W) e t :
  run user transport (_send_media D self media_url media_type content_ seq) w
  = (Raised e, w', t) ->
  exists e0, e = media_except e0.
Proof.
  unfold _send_media. destruct (msg_obj self) as [d | d | d].
  - destruct (existsb _ _); cbn; intros H; injection H as <- _ _.
    + now exists (IncompatibilityError "发送失败，该对象不可发送此类文件" 500).
    + now exists (NameError "url").
  - cbn.
    match goal with
    | |- context [transport ?c w] => destruct (transport c w) as [[media | e0] w1]
    end.
    + cbn.
      match goal with
      | |- context [transport ?c w1] => destruct (transport c w1) as [[v | e1] w2]
      end; [discriminate |].
      intros H. injection H as <- _ _. now exists e1.
    + intros H. injection H as <- _ _. now exists e0.
  - cbn.
    match goal with
    | |- context [transport ?c w] => destruct (transport c w) as [[media | e0] w1]
    end.
    + cbn.
      match goal with
      | |- context [transport ?c w1] => destruct (transport c w1) as [[v | e1] w2]
      end; [discriminate |].
      intros H. injection H as <- _ _. now exists e1.
    + intros H. injection H as <- _ _. now exists e0.
Qed.

(** X12. An exception that [send_image], [send_silk] or [send_video]
    raises, if it is an [Exception] at all, is [EmptyContentError],
    [ContentTypeError], [IncompatibilityError] or [RuntimeError]. *)
Theorem media_error_kinds (self : Callback) (media_url : string)
    (caption : option string) (seq : option Z) (w w' : W) (e : exn)
    (t : list event) :
  run user transport (send_image D self media_url caption seq) w = (Raised e, w', t)
  \/ run user transport (send_silk D self media_url seq) w = (Raised e, w', t)
  \/ run user transport (send_video D self media_url seq) w = (Raised e, w', t) ->
  is_Exception e = true ->
  media_error_kind e.
Proof.
  assert (Hbind : forall media_type content_ seq',
             run user transport
               (_send_media D self media_url media_type content_ seq'
                  ≫= (fun _ => Ret VNone)) w = (Raised e, w', t) ->
             is_Exception e = true -> media_error_kind e).
  { intros media_type content_ seq'. rewrite run_bind.
    destruct (run user transport (_send_media D self media_url media_type content_ seq') w)
      as [[[v | e0] w1] t1] eqn:Hrun; [discriminate |].
    intros H. injection H as <- _ _.
    destruct (_send_media_raises _ _ _ _ _ _ _ _ _ Hrun) as [e1 ->].
    apply media_except_kind. }
  intros [H | [H | H]].
  - unfold send_image in H.
    destruct (PyStr.len (default EmptyString caption) =? 0)%nat.
    + cbn in H. injection H as <- _ _. intros _. exact I.
    + exact (Hbind _ _ _ H).
  - exact (Hbind _ _ _ H).
  - exact (Hbind _ _ _ H).
Qed.

End SendFurther.


Lemma send_error_kinds_witness :
  let cb := callback_of (c2c_msg "hello") in
  run counting_user failing_transport (send some_defaults cb "pong" (Some 7)) 0%nat
  = (Raised (RuntimeError (OtherException "ServerError")), 1%nat,
     [EvApi (post_c2c_message "user-1" 0 "pong" "m-3" 7 None)])
  /\ send_error_kind (RuntimeError (OtherException "ServerError")).
Proof.
  intros cb. split; [reflexivity |].
  exact (send_error_kinds counting_user failing_transport some_defaults cb "pong"
           (Some 7) 0%nat 1%nat _ _ eq_refl eq_refl).
Defined.

Lemma send_media_upload_first_witness :
  let cb := callback_of (group_msg "hello") in
  is_channel (msg_obj cb) = false
  /\ exists up,
      request_upload up = Some (1, "https://example.org/a.png")
      /\ run counting_user failing_transport
           (_send_media some_defaults cb "https://example.org/a.png" 1 "look" None)
           0%nat
         = (Raised (RuntimeError (OtherException "ServerError")), 1%nat, [EvApi up]).
Proof.
  intros cb. split; [reflexivity |].
  destruct (send_media_upload_first counting_user failing_transport some_defaults cb
              "https://example.org/a.png" 1 "look" None 0%nat eq_refl)
    as (up & Hup & Hrun).
  exists up. split; [exact Hup | exact Hrun].
Defined.

Lemma media_error_kinds_witness :
  let cb := callback_of (channel_msg "hello") in
  run counting_user counting_transport
    (send_video some_defaults cb "https://example.org/a.mp4" None) 0%nat
  = (Raised (IncompatibilityError "发送失败，该对象不可发送此类文件" 500), 0%nat, [])
  /\ media_error_kind (IncompatibilityError "发送失败，该对象不可发送此类文件" 500).
Proof.
  intros cb. split; [reflexivity |].
  exact (media_error_kinds counting_user counting_transport some_defaults cb
           "https://example.org/a.mp4" None None 0%nat 0%nat _ [] 
           (or_intror (or_intror eq_refl)) eq_refl).
Defined.

(** ** The user store, further *)

Lemma get_table_set_table_other m m' t db :
  audience_of m' <> audience_of m ->
  get_table (audience_of m') (set_table (audience_of m) t db)
  = get_table (audience_of m') db.
Proof. destruct m, m'; intros H; try reflexivity; now elim H. Qed.

(** The state that a call of [insert_userinfo] leaves: the tables change
    only by the insert of a first call for a channel or a group member. *)
Lemma insert_userinfo_state m appid db :
  snd (insert_userinfo (built m appid) db)
  = match stored (built m appid) db, is_c2c_free m with
    | None, true => after_insert (built m appid) db
    | _, _ => log (SELECT (audience_of m +:+ "_table") (user_openid (built m appid))) db
    end.
Proof.
  destruct (stored (built m appid) db) as [r |] eqn:Hs.
  - now rewrite (insert_userinfo_present _ _ _ _ Hs).
  - destruct m as [d | d | d]; cbn [is_c2c_free].
    + rewrite (insert_userinfo_absent (Message d) appid db); [reflexivity | | exact Hs].
      discriminate.
    + rewrite (insert_userinfo_absent (GroupMessage d) appid db);
        [reflexivity | | exact Hs].
      discriminate.
    + now rewrite (insert_userinfo_c2c_raises _ _ _ Hs).
Qed.

Lemma table_ok_insert t id r :
  table_ok t -> rows t !! id = None ->
  row_userid r = auto_increment t -> row_openid r = id -> row_message_number r = 1 ->
  table_ok {| rows := <[id := r]> (rows t); auto_increment := auto_increment t + 1 |}.
Proof.
  intros (Hpos & Hrows & Hdistinct) Hfresh Hid Hopen Hcount.
  split; [cbn; lia |]. split; cbn [rows auto_increment].
  - intros id' r' Hl. destruct (decide (id = id')) as [<- | Hne].
    + rewrite lookup_insert_eq in Hl. injection Hl as <-.
      repeat split; auto; lia.
    + rewrite lookup_insert_ne in Hl by exact Hne.
      destruct (Hrows _ _ Hl) as (H1 & H2 & H3). repeat split; auto; lia.
  - intros id1 id2 r1 r2 Hl1 Hl2 Heq.
    destruct (decide (id = id1)) as [<- | Hne1], (decide (id = id2)) as [<- | Hne2];
      [reflexivity | | |].
    + rewrite lookup_insert_eq in Hl1. injection Hl1 as <-.
      rewrite lookup_insert_ne in Hl2 by exact Hne2.
      destruct (Hrows _ _ Hl2) as (_ & H2 & _). lia.
    + rewrite lookup_insert_eq in Hl2. injection Hl2 as <-.
      rewrite lookup_insert_ne in Hl1 by exact Hne1.
      destruct (Hrows _ _ Hl1) as (_ & H2 & _). lia.
    + rewrite lookup_insert_ne in Hl1 by exact Hne1.
      rewrite lookup_insert_ne in Hl2 by exact Hne2.
      exact (Hdistinct _ _ _ _ Hl1 Hl2 Heq).
Qed.

Lemma database_ok_table m db : database_ok db -> table_ok (get_table (audience_of m) db).
Proof. intros (H1 & H2 & H3). now destruct m. Qed.

Lemma database_ok_log s db : database_ok db -> database_ok (log s db).
Proof. intros H. exact H. Qed.

Lemma database_ok_set_table m t db :
  database_ok db -> table_ok t -> database_ok (set_table (audience_of m) t db).
Proof.
  intros (H1 & H2 & H3) Ht. destruct m; unfold database_ok; cbn; auto.
Qed.

Lemma insert_userinfo_built_ok m appid db :
  database_ok db -> database_ok (snd (insert_userinfo (built m appid) db)).
Proof.
  intros Hok. rewrite insert_userinfo_state.
  destruct (stored (built m appid) db) as [r |] eqn:Hs; [exact Hok |].
  destruct (is_c2c_free m); [| exact Hok].
  unfold after_insert. apply database_ok_log. cbn [msg_type built].
  apply database_ok_set_table; [exact Hok |].
  apply table_ok_insert; try reflexivity.
  - now apply database_ok_table.
  - exact Hs.
Qed.

(** X13. [insert_userinfo] keeps the tables well formed: every row is
    stored under its own open-id, the row ids are positive, pairwise
    distinct and below the next id of the table, and every counter is 1. *)
Theorem insert_userinfo_keeps_tables_ok (o : pyobj) (appid : option string)
    (cb : Callback) (db : Database) :
  Callback_init o appid = Returned cb ->
  database_ok db ->
  database_ok (snd (insert_userinfo cb db)).
Proof.
  intros Hinit Hok.
  destruct o as [m | n]; [| discriminate Hinit].
  rewrite Callback_init_message in Hinit. injection Hinit as <-.
  now apply insert_userinfo_built_ok.
Qed.

Lemma database_ok_empty : database_ok empty_database.
Proof.
  assert (H : table_ok empty_table).
  { split; [reflexivity |]. split; intros *; cbn; now rewrite lookup_empty. }
  now repeat split.
Qed.

Lemma insert_userinfo_keeps_tables_ok_witness :
  Callback_init (OMessage (group_msg "hello")) None
  = Returned (callback_of (group_msg "hello"))
  /\ database_ok empty_database
  /\ database_ok (snd (insert_userinfo (callback_of (group_msg "hello")) empty_database)).
Proof.
  split; [reflexivity |]. split; [exact database_ok_empty |].
  exact (insert_userinfo_keeps_tables_ok (OMessage (group_msg "hello")) None _
           empty_database eq_refl database_ok_empty).
Defined.

Lemma database_ok_insert_all ms db : database_ok db -> database_ok (insert_all ms db).
Proof.
  revert db. induction ms as [| m ms IH]; intros db Hok; [exact Hok |].
  change (insert_all (m :: ms) db)
    with (insert_all ms (snd (insert_userinfo (built m None) db))).
  apply IH. now apply insert_userinfo_built_ok.
Qed.

(** X14. The counter is never more than 1: after [insert_userinfo] was
    called for any messages from an empty store, the snapshot that a
    further call returns has the counter 1. *)
Theorem insert_userinfo_counter_stays_one (ms : list message) (m : message)
    (appid : option string) (s : BaseUser) (db' : Database) :
  insert_userinfo (built m appid) (insert_all ms empty_database) = (Returned s, db') ->
  message_number s = 1.
Proof.
  pose proof (database_ok_insert_all ms _ database_ok_empty) as Hok.
  destruct (stored (built m appid) (insert_all ms empty_database)) as [r |] eqn:Hs.
  - rewrite (insert_userinfo_present _ _ _ _ Hs). intros H. injection H as <- _.
    destruct (database_ok_table m _ Hok) as (_ & Hrows & _).
    now destruct (Hrows _ _ Hs) as (_ & _ & H).
  - destruct m as [d | d | d].
    + rewrite (insert_userinfo_absent (Message d) appid _ ltac:(discriminate) Hs).
      intros H. now injection H as <- _.
    + rewrite (insert_userinfo_absent (GroupMessage d) appid _ ltac:(discriminate) Hs).
      intros H. now injection H as <- _.
    + rewrite (insert_userinfo_c2c_raises _ _ _ Hs). discriminate.
Qed.

Lemma insert_userinfo_counter_stays_one_witness :
  let ms := [group_msg "a"; channel_msg "b"; group_msg "c"] in
  insert_userinfo (built (group_msg "d") None) (insert_all ms empty_database)
  = (Returned {| userid := 1; openid := "member-1"; message_number := 1;
                 channel_id := None; group_id := Some "group-1" |},
     snd (insert_userinfo (built (group_msg "d") None) (insert_all ms empty_database)))
  /\ message_number {| userid := 1; openid := "member-1"; message_number := 1;
                       channel_id := None; group_id := Some "group-1" |} = 1.
Proof.
  intros ms.
  assert (H : insert_userinfo (built (group_msg "d") None) (insert_all ms empty_database)
              = (Returned {| userid := 1; openid := "member-1"; message_number := 1;
                             channel_id := None; group_id := Some "group-1" |},
                 snd (insert_userinfo (built (group_msg "d") None)
                        (insert_all ms empty_database)))).
  { vm_compute. reflexivity. }
  split; [exact H |].
  exact (insert_userinfo_counter_stays_one ms (group_msg "d") None _ _ H).
Defined.

(** X15. [insert_userinfo] touches the row of its own sender only: for a
    [Callback] of another audience, or of another open-id, the stored row
    is the one before. *)
Theorem insert_userinfo_frame (m m' : message) (appid appid' : option string)
    (db : Database) :
  audience_of m' <> audience_of m
  \/ user_openid (built m' appid') <> user_openid (built m appid) ->
  stored (built m' appid') (snd (insert_userinfo (built m appid) db))
  = stored (built m' appid') db.
Proof.
  intros Hother. rewrite insert_userinfo_state.
  destruct (stored (built m appid) db) as [r |] eqn:Hs;
    [unfold stored; now rewrite get_table_log |].
  destruct (is_c2c_free m); [| unfold stored; now rewrite get_table_log].
  unfold stored, after_insert. cbn [msg_type built]. rewrite get_table_log.
  destruct (decide (audience_of m' = audience_of m)) as [Heq | Hne].
  - rewrite Heq, get_table_set_table. cbn [rows].
    destruct Hother as [Hne | Hne]; [now elim Hne |].
    rewrite lookup_insert_ne; [reflexivity |]. intros H. now apply Hne.
  - now rewrite (get_table_set_table_other _ _ _ _ Hne), get_table_log.
Qed.

Lemma insert_userinfo_frame_witness :
  let db := snd (insert_userinfo (callback_of (group_msg "a")) empty_database) in
  stored (callback_of (group_msg "a"))
    (snd (insert_userinfo (callback_of (channel_msg "b")) db))
  = stored (callback_of (group_msg "a")) db.
Proof.
  intros db.
  apply (insert_userinfo_frame (channel_msg "b") (group_msg "a") None None db).
  left. discriminate.
Defined.

(** X16. After [insert_userinfo] returned a snapshot, [get_userinfo] for
    the same [Callback] finds a row: its snapshot has the open-id and the
    counter of the returned one, and the same row id unless the returned
    one came from the insert and has none. *)
Theorem get_userinfo_after_insert (m : message) (appid : option string)
    (db db1 : Database) (s : BaseUser) :
  insert_userinfo (built m appid) db = (Returned s, db1) ->
  exists s',
    fst (get_userinfo (built m appid) db1) = Returned (Some s')
    /\ openid s' = openid s
    /\ message_number s' = message_number s
    /\ (s' = s \/ userid s = 0).
Proof.
  destruct (stored (built m appid) db) as [r |] eqn:Hs.
  - rewrite (insert_userinfo_present _ _ _ _ Hs). intros H. injection H as <- <-.
    exists (BaseUser_of_row (audience_of m) r). rewrite get_userinfo_built.
    unfold stored. rewrite get_table_log. unfold stored in Hs. rewrite Hs. auto.
  - destruct (is_c2c_free m) eqn:Hm.
    + assert (Hkind : audience_of m <> "c2c") by (destruct m; discriminate).
      rewrite (insert_userinfo_absent m appid db Hkind Hs). intros H.
      injection H as <- <-.
      exists (BaseUser_of_row (audience_of m) (new_row (built m appid) db)).
      rewrite get_userinfo_built, stored_after_insert. cbn. auto.
    + destruct m as [d | d | d]; try discriminate Hm.
      rewrite (insert_userinfo_c2c_raises _ _ _ Hs). discriminate.
Qed.

Lemma get_userinfo_after_insert_witness :
  let cb := built (channel_msg "hello") None in
  insert_userinfo cb empty_database
  = (Returned (fresh_snapshot cb), after_insert cb empty_database)
  /\ exists s',
      fst (get_userinfo cb (after_insert cb empty_database)) = Returned (Some s')
      /\ openid s' = openid (fresh_snapshot cb)
      /\ message_number s' = message_number (fresh_snapshot cb)
      /\ (s' = fresh_snapshot cb \/ userid (fresh_snapshot cb) = 0).
Proof.
  intros cb.
  assert (H : insert_userinfo cb empty_database
              = (Returned (fresh_snapshot cb), after_insert cb empty_database)).
  { apply insert_userinfo_absent; [discriminate | reflexivity]. }
  split; [exact H |].
  exact (get_userinfo_after_insert (channel_msg "hello") None _ _ _ H).
Defined.

(** X17. [get_userinfo] reads only: whatever the [Callback], the tables
    are the ones before and one [SELECT] is executed; with an audience tag
    that names no table it raises [RuntimeError]. *)
Theorem get_userinfo_reads_only (cb : Callback) (db : Database) :
  same_tables (snd (get_userinfo cb db)) db
  /\ executed (snd (get_userinfo cb db))
     = executed db ++ [SELECT (msg_type cb +:+ "_table") (user_openid cb)]
  /\ (kind_of_table (msg_type cb +:+ "_table") = None ->
      fst (get_userinfo cb db)
      = Raised (RuntimeError (ProgrammingError (msg_type cb +:+ "_table")))).
Proof.
  unfold get_userinfo, try_RuntimeError, execute_select, mbind, db_mbind, mret, db_mret.
  destruct (kind_of_table (msg_type cb +:+ "_table")) as [kind |].
  - destruct (rows _ !! user_openid cb); cbn; repeat split; discriminate.
  - cbn. repeat split.
Qed.

Lemma get_userinfo_reads_only_witness :
  let cb := {| msg_type := "guild"; msg_obj := group_msg "hello"; bot_appid := None |} in
  kind_of_table (msg_type cb +:+ "_table") = None
  /\ fst (get_userinfo cb empty_database)
     = Raised (RuntimeError (ProgrammingError "guild_table")).
Proof.
  intros cb. split; [reflexivity |].
  exact (proj2 (proj2 (get_userinfo_reads_only cb empty_database)) eq_refl).
Defined.

Lemma c2c_table_insert_all ms db : c2c_table (insert_all ms db) = c2c_table db.
Proof.
  revert db. induction ms as [| m ms IH]; intros db; [reflexivity |].
  change (insert_all (m :: ms) db)
    with (insert_all ms (snd (insert_userinfo (built m None) db))).
  rewrite IH, insert_userinfo_state.
  destruct (stored (built m None) db); [reflexivity |].
  destruct m; reflexivity.
Qed.

(** X18. A direct user is never stored: [insert_userinfo] leaves the table
    of the direct audience as it is, whatever the message, and a first
    call for a direct message raises [RuntimeError]; so after any calls
    from an empty store, [get_userinfo] for a direct message finds
    nothing. *)
Theorem c2c_never_stored (ms : list message) (m : message) (d : C2CData)
    (appid : option string) (db : Database) :
  c2c_table (snd (insert_userinfo (built m appid) db)) = c2c_table db
  /\ (stored (built (C2CMessage d) appid) db = None ->
      fst (insert_userinfo (built (C2CMessage d) appid) db)
      = Raised (RuntimeError (TypeError "'str' object is not callable")))
  /\ fst (get_userinfo (built (C2CMessage d) appid) (insert_all ms empty_database))
     = Returned None.
Proof.
  split; [| split].
  - rewrite insert_userinfo_state.
    destruct (stored (built m appid) db); [reflexivity |]. destruct m; reflexivity.
  - intros Hs. now rewrite (insert_userinfo_c2c_raises _ _ _ Hs).
  - rewrite get_userinfo_built. unfold stored. cbn [msg_type built audience_of].
    change (get_table "c2c" (insert_all ms empty_database))
      with (c2c_table (insert_all ms empty_database)).
    rewrite c2c_table_insert_all. cbn. now rewrite lookup_empty.
Qed.

Lemma c2c_never_stored_witness :
  stored (built (c2c_msg "hello") None) empty_database = None
  /\ fst (insert_userinfo (built (c2c_msg "hello") None) empty_database)
     = Raised (RuntimeError (TypeError "'str' object is not callable")).
Proof.
  split; [reflexivity |].
  destruct (c2c_never_stored [] (c2c_msg "hello")
              {| c2_id := "m-3"; c2_content := "hello";
                 c2_author_user_openid := "user-1"; c2_timestamp := EmptyString |}
              None empty_database) as (_ & H & _).
  exact (H eq_refl).
Defined.

(** ** The members of a group *)

Lemma select_by_group_elem group_id t r :
  r ∈ select_by_group group_id t
  <-> row_context r = Some group_id /\ exists id, rows t !! id = Some r.
Proof.
  unfold select_by_group. rewrite list_elem_of_filter, list_elem_of_fmap.
  split.
  - intros (Hc & [id r'] & -> & Hin). apply elem_of_map_to_list in Hin.
    split; [exact Hc | now exists id].
  - intros (Hc & id & Hl). split; [exact Hc |]. exists (id, r).
    split; [reflexivity | now apply elem_of_map_to_list].
Qed.

(** X19. [get_group_use_user] changes no table.  For a
    [Callback] that wraps no group message it returns the empty list.  For
    a group message, every user it returns carries the group id of the
    message; and once [insert_userinfo] has inserted the sender, with a
    group id that is not empty, the sender is among them. *)
Theorem get_group_use_user_lists_the_group (cb : Callback) (db : Database) :
  same_tables (snd (get_group_use_user cb db)) db
  /\ ((forall d, msg_obj cb <> GroupMessage d) ->
      fst (get_group_use_user cb db) = Returned [])
  /\ (forall d, msg_obj cb = GroupMessage d ->
      exists users,
        fst (get_group_use_user cb db) = Returned users
        /\ Forall (fun u => group_id u = Some (gr_group_openid d) /\ channel_id u = None)
             users)
  /\ (forall d appid,
      cb = built (GroupMessage d) appid ->
      gr_group_openid d <> EmptyString ->
      stored cb db = None ->
      exists users u,
        fst (get_group_use_user cb (snd (insert_userinfo cb db))) = Returned users
        /\ u ∈ users
        /\ openid u = gr_author_member_openid d
        /\ message_number u = 1).
Proof.
  unfold get_group_use_user. split; [| split; [| split]].
  - destruct (msg_obj cb); now repeat split.
  - intros Hd. destruct (msg_obj cb) as [c | g | c]; try reflexivity.
    now elim (Hd g).
  - intros d ->. eexists. split; [reflexivity |].
    apply Forall_fmap, Forall_forall. intros r Hr.
    apply select_by_group_elem in Hr as [Hc _]. cbn. now rewrite Hc.
  - intros d appid -> Hgid Hs. cbn [msg_obj built].
    rewrite (insert_userinfo_absent (GroupMessage d) appid db ltac:(discriminate) Hs).
    cbn [snd fst].
    eexists. exists (BaseUser_of_row "group" (new_row (built (GroupMessage d) appid) db)).
    split; [reflexivity |]. split; [| split; reflexivity].
    apply list_elem_of_fmap_2, select_by_group_elem.
    split.
    + unfold new_row. cbn [msg_obj built context_of row_context].
      destruct (String.eqb_spec (gr_group_openid d) EmptyString) as [He | _];
        [now elim Hgid | reflexivity].
    + exists (gr_author_member_openid d).
      pose proof (stored_after_insert (GroupMessage d) appid db) as H.
      unfold stored in H. cbn [msg_type built audience_of] in H.
      unfold after_insert, log, set_table in *. cbn in *. exact H.
Qed.

Lemma get_group_use_user_lists_the_group_witness :
  let cb := built (group_msg "hello") None in
  gr_group_openid (group_data "group-1" "hello" "member-1") <> EmptyString
  /\ stored cb empty_database = None
  /\ exists users u,
      fst (get_group_use_user cb (snd (insert_userinfo cb empty_database)))
      = Returned users
      /\ u ∈ users
      /\ openid u = "member-1"
      /\ message_number u = 1.
Proof.
  intros cb. split; [discriminate |]. split; [reflexivity |].
  destruct (get_group_use_user_lists_the_group cb empty_database) as (_ & _ & _ & H).
  exact (H {| gr_id := "m-1"; gr_group_openid := "group-1"; gr_content := "hello";
              gr_author_member_openid := "member-1"; gr_timestamp := EmptyString |}
           None eq_refl ltac:(discriminate) eq_refl).
Defined.

(** X20. The group of a member is the one of the first message: when the
    group table already holds the sender's row with another group id (or
    none), [insert_userinfo] returns that row, and [get_group_use_user]
    for the group of the new message does not list the sender. *)
Theorem group_member_kept_under_first_group (d : GroupData) (appid : option string)
    (db : Database) (r : row) :
  database_ok db ->
  stored (built (GroupMessage d) appid) db = Some r ->
  row_context r <> Some (gr_group_openid d) ->
  let cb := built (GroupMessage d) appid in
  fst (insert_userinfo cb db) = Returned (BaseUser_of_row "group" r)
  /\ exists users,
      fst (get_group_use_user cb (snd (insert_userinfo cb db))) = Returned users
      /\ Forall (fun u => openid u <> gr_author_member_openid d) users.
Proof.
  intros Hok Hs Hctx cb. subst cb.
  rewrite (insert_userinfo_present _ _ _ _ Hs). cbn [fst snd].
  split; [reflexivity |]. unfold get_group_use_user. cbn [msg_obj built].
  eexists. split; [reflexivity |].
  apply Forall_fmap, Forall_forall. intros r' Hr'.
  apply select_by_group_elem in Hr' as (Hc & id & Hl).
  cbn [group_table log] in Hl. cbn. intros Hopen.
  destruct Hok as (_ & (_ & Hrows & _) & _).
  destruct (Hrows _ _ Hl) as (Hid & _).
  unfold stored in Hs. cbn [msg_type built audience_of user_openid msg_obj] in Hs.
  change (get_table "group" db) with (group_table db) in Hs.
  rewrite Hid in Hopen. subst id. rewrite Hl in Hs. injection Hs as ->.
  now apply Hctx.
Qed.

Lemma group_member_kept_under_first_group_witness :
  let first := group_data "group-1" "hello" "member-1" in
  let later := group_data "group-2" "hello again" "member-1" in
  let db := snd (insert_userinfo (built (GroupMessage first) None) empty_database) in
  fst (insert_userinfo (built (GroupMessage later) None) db)
  = Returned {| userid := 1; openid := "member-1"; message_number := 1;
                channel_id := None; group_id := Some "group-1" |}
  /\ exists users,
      fst (get_group_use_user (built (GroupMessage later) None)
             (snd (insert_userinfo (built (GroupMessage later) None) db)))
      = Returned users
      /\ Forall (fun u => openid u <> "member-1") users.
Proof.
  intros first later db.
  assert (Hok : database_ok db).
  { apply (insert_userinfo_built_ok (GroupMessage first) None), database_ok_empty. }
  exact (group_member_kept_under_first_group later None db
           {| row_userid := 1; row_openid := "member-1"; row_message_number := 1;
              row_context := Some "group-1" |}
           Hok eq_refl ltac:(discriminate)).
Defined.

(** X21. [clear_table] returns with the three tables empty: afterwards
    [get_userinfo] finds no row for any message and [get_group_use_user]
    lists nobody. *)
Theorem clear_table_empties (db : Database) :
  fst (clear_table db) = Returned tt
  /\ same_tables (snd (clear_table db)) empty_database
  /\ (forall m appid,
        fst (get_userinfo (built m appid) (snd (clear_table db))) = Returned None)
  /\ (forall cb, fst (get_group_use_user cb (snd (clear_table db))) = Returned []).
Proof.
  split; [reflexivity |]. split; [now repeat split |]. split.
  - intros m appid. rewrite get_userinfo_built. unfold stored.
    destruct m; cbn; now rewrite lookup_empty.
  - intros cb. unfold get_group_use_user.
    destruct (msg_obj cb); reflexivity.
Qed.
